(** * personal-weather-agent: the compass classifiers, the forecast
      normalizers, the aggregate analysis and one pass of the daily loop

    A shallow embedding of
      - src/internal/weather/weather.go  (Module [Weather]),
      - src/internal/agent/agent.go      (Module [Agent]),
      - src/unnamed/part_000             (Module [AgentPart000], the variant of
        package agent with the four-point compass table),
      - the declarations that the two variants of package agent share word
        for word (Module [AgentBase]).

    Conventions of the embedding.
      - A Go [int] is a [Z]; every integer that occurs below is far inside the
        64-bit range.
      - A [float64] is the rational number it denotes ([Q]); sums are exact,
        the rounding of the machine is not modelled. Comparisons of floats
        are the boolean comparisons of [Q].
      - A slice is a [list]; an index expression [s[i]] that is out of range
        is a run-time panic, made explicit as the third case of [Go.result].
      - A Go [error] value is kept structured ([Go.error]): the message of
        [errors.New], the format and arguments of [fmt.Errorf].
      - Printing and sending are events appended to a trace ([IO.t]); what
        the weather, LLM and chat services answer is a parameter. *)

From Stdlib Require Import ZArith QArith Qround String Ascii List Bool Lia.
From Stdlib Require Import DecimalString.
Import ListNotations.

Open Scope string_scope.
Open Scope Z_scope.

(** ** Go primitives used by the sources *)

Module Go.

(** [int(x)] for a [float64] [x]: the fraction is discarded (truncation
    toward zero). *)
Definition int_of_float64 (x : Q) : Z := Z.quot (Qnum x) (Zpos (Qden x)).

(** [float64(n)] for an [int] [n]. *)
Definition float64_of_int (n : Z) : Q := inject_Z n.

(** [a % b] on [int]: the remainder has the sign of the dividend. *)
Definition rem (a b : Z) : Z := Z.rem a b.

(** [x <= y] and [x < y] on [float64]. *)
Definition fle (x y : Q) : bool := Qle_bool x y.
Definition flt (x y : Q) : bool := negb (Qle_bool y x).

(** A Go [error] value: what [errors.New], [time.Parse], [ctx.Err()] of a
    context that is done, and [fmt.Errorf] (with its format, its string
    arguments and, for the verb [%w], the error it wraps) build. *)
Inductive error : Type :=
| errors_New (msg : string)
| time_ParseError (layout value : string)
| context_Err
| fmt_Errorf (format : string) (args : list string)
| fmt_Errorf_w (format : string) (args : list string) (wrapped : error).

(** What a Go function that returns [(T, error)] can do: return a value,
    return an error, or panic at run time. *)
Inductive result (A : Type) : Type :=
| Ok (a : A)
| Err (e : error)
| Panic (msg : string).
Arguments Ok {A} a.
Arguments Err {A} e.
Arguments Panic {A} msg.

Definition bind {A B : Type} (m : result A) (k : A -> result B) : result B :=
  match m with
  | Ok a => k a
  | Err e => Err e
  | Panic msg => Panic msg
  end.

(** [s[i]]: the element, or the run-time panic of an index out of range. *)
Definition index {A : Type} (s : list A) (i : nat) : result A :=
  match nth_error s i with
  | Some a => Ok a
  | None => Panic "index out of range"
  end.

End Go.

Notation "x <- m ;; k" := (Go.bind m (fun x => k))
  (at level 61, m at next level, right associativity).

(** ** Go's package time, as far as the sources use it

    A [time.Time] in UTC is kept as its calendar and clock fields; the sources
    read them back with [Year()], [Month()], [Day()] and [Hour()]. *)

Module Time.

Record t : Type := mk
  { Year : Z; Month : Z; Day : Z;
    Hour : Z; Minute : Z; Second : Z; Nanosecond : Z }.

Definition isLeap (year : Z) : bool :=
  (year mod 4 =? 0) && (negb (year mod 100 =? 0) || (year mod 400 =? 0)).

Definition daysIn (month year : Z) : Z :=
  if month =? 2 then (if isLeap year then 29 else 28)
  else if (month =? 4) || (month =? 6) || (month =? 9) || (month =? 11)
       then 30 else 31.

(** *** Parsing *)

Definition isDigit (c : ascii) : bool :=
  ((48 <=? N_of_ascii c) && (N_of_ascii c <=? 57))%N.

Definition digit (c : ascii) : Z := Z.of_N (N_of_ascii c) - 48.

(** [getnum(s, fixed)]: one or two leading digits; two are required when
    [fixed]. *)
Definition getnum (s : string) (fixed : bool) : option (Z * string) :=
  match s with
  | String c0 rest =>
      if isDigit c0 then
        match rest with
        | String c1 rest' =>
            if isDigit c1 then Some (digit c0 * 10 + digit c1, rest')
            else if fixed then None else Some (digit c0, rest)
        | EmptyString => if fixed then None else Some (digit c0, rest)
        end
      else None
  | EmptyString => None
  end.

(** The element [2006] of a layout: exactly four digits. *)
Definition getyear (s : string) : option (Z * string) :=
  match s with
  | String a (String b (String c (String d rest))) =>
      if isDigit a && isDigit b && isDigit c && isDigit d
      then Some (digit a * 1000 + digit b * 100 + digit c * 10 + digit d, rest)
      else None
  | _ => None
  end.

(** A literal character of the layout. *)
Definition skip (c : ascii) (s : string) : option string :=
  match s with
  | String c' rest => if Ascii.eqb c c' then Some rest else None
  | EmptyString => None
  end.

(** The prefix [2006-01-02] of both layouts: year, month in 1..12, a one-
    or two-digit day that is checked against the month once everything is
    read. *)
Definition parseYMD (s : string) : option (Z * Z * Z * string) :=
  match getyear s with
  | Some (year, s1) =>
      match skip "-" s1 with
      | Some s2 =>
          match getnum s2 true with
          | Some (month, s3) =>
              if (1 <=? month) && (month <=? 12) then
                match skip "-" s3 with
                | Some s4 =>
                    match getnum s4 true with
                    | Some (day, s5) => Some (year, month, day, s5)
                    | None => None
                    end
                | None => None
                end
              else None
          | None => None
          end
      | None => None
      end
  | None => None
  end.

Definition dayInRange (year month day : Z) : bool :=
  (1 <=? day) && (day <=? daysIn month year).

(** [time.Parse("2006-01-02", value)]. *)
Definition ParseDate (value : string) : Go.result t :=
  match parseYMD value with
  | Some (year, month, day, EmptyString) =>
      if dayInRange year month day
      then Go.Ok (mk year month day 0 0 0 0)
      else Go.Err (Go.time_ParseError "2006-01-02" value)
  | _ => Go.Err (Go.time_ParseError "2006-01-02" value)
  end.

(** The suffix [T15:04]: the hour has one or two digits, the minute two. *)
Definition parseHM (s : string) : option (Z * Z * string) :=
  match skip "T" s with
  | Some s1 =>
      match getnum s1 false with
      | Some (hour, s2) =>
          if hour <? 24 then
            match skip ":" s2 with
            | Some s3 =>
                match getnum s3 true with
                | Some (min, s4) =>
                    if min <? 60 then Some (hour, min, s4) else None
                | None => None
                end
            | None => None
            end
          else None
      | None => None
      end
  | None => None
  end.

(** [time.Parse("2006-01-02T15:04", value)]. *)
Definition ParseDateHourMinute (value : string) : Go.result t :=
  match parseYMD value with
  | Some (year, month, day, rest) =>
      match parseHM rest with
      | Some (hour, min, EmptyString) =>
          if dayInRange year month day
          then Go.Ok (mk year month day hour min 0 0)
          else Go.Err (Go.time_ParseError "2006-01-02T15:04" value)
      | _ => Go.Err (Go.time_ParseError "2006-01-02T15:04" value)
      end
  | None => Go.Err (Go.time_ParseError "2006-01-02T15:04" value)
  end.

(** *** Instants in UTC *)

(** [time.Date(year, month, day, hour, min, sec, nsec, time.UTC)] for
    arguments that are in range, as they are at its one call in [Run]. *)
Definition Date (year month day hour min sec nsec : Z) : t :=
  mk year month day hour min sec nsec.

Fixpoint lexLt (a b : list Z) : bool :=
  match a, b with
  | x :: a', y :: b' => (x <? y) || ((x =? y) && lexLt a' b')
  | _, _ => false
  end.

Definition fields (x : t) : list Z :=
  [Year x; Month x; Day x; Hour x; Minute x; Second x; Nanosecond x].

(** [x.Before(u)]. *)
Definition Before (x u : t) : bool := lexLt (fields x) (fields u).

(** [x.Add(24 * time.Hour)]: the same clock time on the next calendar
    day. *)
Definition Add24Hours (x : t) : t :=
  let clock y m d := mk y m d (Hour x) (Minute x) (Second x) (Nanosecond x) in
  if Day x <? daysIn (Month x) (Year x) then clock (Year x) (Month x) (Day x + 1)
  else if Month x <? 12 then clock (Year x) (Month x + 1) 1
  else clock (Year x + 1) 1 1.

End Time.

(** ** src/internal/weather/weather.go *)

Module Weather.

Module ForecastDay.
Record t : Type := mk
  { Date : Time.t;
    WindSpeedMax : Q;
    WindGustMax : Q;
    WindDirMean : Q }.
End ForecastDay.

Module RainForecast.
Record t : Type := mk
  { Date : Time.t;
    PrecipProb : Z;
    PrecipMM : Q;
    MorningRainProb : list Z;
    MorningRainMM : list Q;
    AfternoonProb : list Z }.
End RainForecast.

Module openMeteoDaily.
Record t : Type := mk
  { Time : list string;
    WindSpeedMax : list Q;
    WindGustMax : list Q;
    WindDirMean : list Q }.
End openMeteoDaily.

Module rainDaily.
Record t : Type := mk
  { Time : list string;
    PrecipSum : list Q;
    PrecipProb : list Z }.
End rainDaily.

Module rainHourly.
Record t : Type := mk
  { Time : list string;
    PrecipProb : list Z;
    Precip : list Q }.
End rainHourly.

Module rainResponse.
Record t : Type := mk
  { Daily : rainDaily.t;
    Hourly : rainHourly.t }.
End rainResponse.

(** [hourTime.Year() == date.Year() && hourTime.Month() == date.Month()
    && hourTime.Day() == date.Day()] *)
Definition sameDate (hourTime date : Time.t) : bool :=
  (Time.Year hourTime =? Time.Year date)
  && (Time.Month hourTime =? Time.Month date)
  && (Time.Day hourTime =? Time.Day date).

(** The two [if hour >= ...] statements of the inner loop of
    [toRainForecasts], for the hourly sample at index [j]. *)
Definition appendHour (r : rainResponse.t) (j : nat) (hour : Z)
    (rf : RainForecast.t) : Go.result RainForecast.t :=
  let hourly := rainResponse.Hourly r in
  rf1 <- (if (6 <=? hour) && (hour <=? 10) then
            p <- Go.index (rainHourly.PrecipProb hourly) j ;;
            mm <- Go.index (rainHourly.Precip hourly) j ;;
            Go.Ok (RainForecast.mk
                     (RainForecast.Date rf)
                     (RainForecast.PrecipProb rf)
                     (RainForecast.PrecipMM rf)
                     (RainForecast.MorningRainProb rf ++ [p])
                     (RainForecast.MorningRainMM rf ++ [mm])
                     (RainForecast.AfternoonProb rf))
          else Go.Ok rf) ;;
  if (15 <=? hour) && (hour <=? 18) then
    p <- Go.index (rainHourly.PrecipProb hourly) j ;;
    Go.Ok (RainForecast.mk
             (RainForecast.Date rf1)
             (RainForecast.PrecipProb rf1)
             (RainForecast.PrecipMM rf1)
             (RainForecast.MorningRainProb rf1)
             (RainForecast.MorningRainMM rf1)
             (RainForecast.AfternoonProb rf1 ++ [p]))
  else Go.Ok rf1.

(** One iteration of [for j, hourStr := range r.Hourly.Time]. *)
Definition hourlyBody (r : rainResponse.t) (date : Time.t) (j : nat)
    (hourStr : string) (rf : RainForecast.t) : Go.result RainForecast.t :=
  match Time.ParseDateHourMinute hourStr with
  | Go.Ok hourTime =>
      if sameDate hourTime date
      then appendHour r j (Time.Hour hourTime) rf
      else Go.Ok rf
  | _ => Go.Ok rf   (* continue *)
  end.

(** The inner loop, from index [j] on. *)
Fixpoint hourlyLoop (r : rainResponse.t) (date : Time.t) (j : nat)
    (hours : list string) (rf : RainForecast.t) : Go.result RainForecast.t :=
  match hours with
  | [] => Go.Ok rf
  | hourStr :: hours' =>
      match hourlyBody r date j hourStr rf with
      | Go.Ok rf' => hourlyLoop r date (S j) hours' rf'
      | Go.Err e => Go.Err e
      | Go.Panic msg => Go.Panic msg
      end
  end.

(** One iteration of [for i, dateStr := range r.Daily.Time]. *)
Definition dailyBody (r : rainResponse.t) (i : nat) (dateStr : string)
    : Go.result RainForecast.t :=
  match Time.ParseDate dateStr with
  | Go.Ok date =>
      p <- Go.index (rainDaily.PrecipProb (rainResponse.Daily r)) i ;;
      mm <- Go.index (rainDaily.PrecipSum (rainResponse.Daily r)) i ;;
      hourlyLoop r date 0 (rainHourly.Time (rainResponse.Hourly r))
        (RainForecast.mk date p mm [] [] [])
  | Go.Err err => Go.Err (Go.fmt_Errorf_w "parse date: %w" [] err)
  | Go.Panic msg => Go.Panic msg
  end.

(** The outer loop, from index [i] on, appending to [out]. *)
Fixpoint dailyLoop (r : rainResponse.t) (i : nat) (dates : list string)
    (out : list RainForecast.t) : Go.result (list RainForecast.t) :=
  match dates with
  | [] => Go.Ok out
  | dateStr :: dates' =>
      match dailyBody r i dateStr with
      | Go.Ok rf => dailyLoop r (S i) dates' (out ++ [rf])
      | Go.Err e => Go.Err e
      | Go.Panic msg => Go.Panic msg
      end
  end.

(** [func (r *rainResponse) toRainForecasts() ([]RainForecast, error)] *)
Definition toRainForecasts (r : rainResponse.t)
    : Go.result (list RainForecast.t) :=
  if (length (rainDaily.Time (rainResponse.Daily r)) =? 0)%nat
  then Go.Err (Go.errors_New "no daily rain data")
  else dailyLoop r 0 (rainDaily.Time (rainResponse.Daily r)) [].

(** The loop of [toForecastDays], from index [idx] on: [rest] is
    [d.Time[idx:]]. *)
Fixpoint forecastLoop (d : openMeteoDaily.t) (idx : nat) (rest : list string)
    (out : list ForecastDay.t) : Go.result (list ForecastDay.t) :=
  match rest with
  | [] => Go.Ok out
  | _ :: rest' =>
      dateStr <- Go.index (openMeteoDaily.Time d) idx ;;
      match Time.ParseDate dateStr with
      | Go.Ok date =>
          speed <- Go.index (openMeteoDaily.WindSpeedMax d) idx ;;
          gust <- Go.index (openMeteoDaily.WindGustMax d) idx ;;
          dir <- Go.index (openMeteoDaily.WindDirMean d) idx ;;
          forecastLoop d (S idx) rest'
            (out ++ [ForecastDay.mk date speed gust dir])
      | Go.Err err =>
          Go.Err (Go.fmt_Errorf_w "parse date %q: %w" [dateStr] err)
      | Go.Panic msg => Go.Panic msg
      end
  end.

(** [func (d *openMeteoDaily) toForecastDays() ([]ForecastDay, error)] *)
Definition toForecastDays (d : openMeteoDaily.t)
    : Go.result (list ForecastDay.t) :=
  if (length (openMeteoDaily.Time d) =? 0)%nat
  then Go.Err (Go.errors_New "no daily data returned")
  else if negb (length (openMeteoDaily.Time d)
                  =? length (openMeteoDaily.WindSpeedMax d))%nat
          || negb (length (openMeteoDaily.Time d)
                     =? length (openMeteoDaily.WindGustMax d))%nat
          || negb (length (openMeteoDaily.Time d)
                     =? length (openMeteoDaily.WindDirMean d))%nat
  then Go.Err (Go.errors_New "open-meteo arrays differ in length")
  else forecastLoop d 0 (openMeteoDaily.Time d) [].

End Weather.

(** ** Text and effects *)

(** The characters that Go writes as escapes in its string literals. *)
Definition nl : string := String (ascii_of_nat 10) EmptyString.
Definition tab : string := String (ascii_of_nat 9) EmptyString.
Definition dquote : string := String (ascii_of_nat 34) EmptyString.

(** The verb [%d] of package fmt. *)
Definition itoa (n : Z) : string := NilZero.string_of_int (Z.to_int n).

(** The verb [%-3s] of package fmt, for text of one-byte characters: padded
    with spaces on the right to the width. *)
Fixpoint spaces (n : nat) : string :=
  match n with
  | O => EmptyString
  | S n' => String " " (spaces n')
  end.

Definition padRight (width : nat) (s : string) : string :=
  s ++ spaces (width - String.length s).

(** The functions of Go's standard library whose result is text that the
    sources only pass on: [Time.Format(layout)], the float verbs of
    [fmt.Sprintf] and [strings.TrimSpace]. *)
Class TextLib : Type :=
  { time_Format : string -> Time.t -> string;
    fmt_float : string -> Q -> string;
    strings_TrimSpace : string -> string }.

(** [strconv.Atoi]: an optional sign and decimal digits, in the range of
    [int]. *)
Module Strconv.

Fixpoint digits (acc : Z) (s : string) : option Z :=
  match s with
  | EmptyString => Some acc
  | String c rest =>
      if Time.isDigit c then digits (acc * 10 + Time.digit c) rest else None
  end.

Definition unsigned (s : string) : option Z :=
  match s with
  | EmptyString => None
  | _ => digits 0 s
  end.

Definition inInt (v : Z) : option Z :=
  if (- 2 ^ 63 <=? v) && (v <? 2 ^ 63) then Some v else None.

Definition Atoi (s : string) : option Z :=
  match s with
  | String "-" rest =>
      match unsigned rest with Some v => inInt (- v) | None => None end
  | String "+" rest =>
      match unsigned rest with Some v => inInt v | None => None end
  | _ =>
      match unsigned s with Some v => inInt v | None => None end
  end.

End Strconv.

(** Effects: a function that prints or sends threads the trace of what has
    been done so far. *)
Module IO.

Definition t (E A : Type) : Type := list E -> A * list E.

Definition ret {E A : Type} (a : A) : t E A := fun tr => (a, tr).

Definition bind {E A B : Type} (m : t E A) (k : A -> t E B) : t E B :=
  fun tr => let (a, tr') := m tr in k a tr'.

Definition emit {E : Type} (e : E) : t E unit := fun tr => (tt, (tr ++ [e])%list).

(** The trace of a run that starts with nothing done. *)
Definition run {E A : Type} (m : t E A) : A * list E := m [].

End IO.

Notation "x <~ m ;; k" := (IO.bind m (fun x => k))
  (at level 61, m at next level, right associativity).
Notation "m >> k" := (IO.bind m (fun _ => k))
  (at level 61, right associativity).

(** ** Package agent: what src/internal/agent/agent.go and
       src/unnamed/part_000 declare in the same words *)

Module AgentBase.

(** [weather.Forecaster]: [Fetch(ctx, days)] returns a forecast and an
    error, which is [nil] ([None]) on success. *)
Definition Forecaster : Type :=
  Z -> list Weather.ForecastDay.t * option Go.error.

(** [*ollama.Client]: [Generate(ctx, prompt)] returns a summary and an
    error. Package ollama is outside the sources at hand; [Run] only looks
    at the two results. *)
Definition OllamaClient : Type := string -> string * option Go.error.

Module Config.
Record t : Type := mk
  { LocationName : string;
    ForecastDays : Z;
    Weather : option Forecaster;     (* [None] is the nil interface *)
    Ollama : option OllamaClient;    (* [None] is the nil pointer *)
    TelegramToken : string;
    TelegramChatID : string }.
End Config.

Record Agent : Type := mkAgent { cfg : Config.t }.

(** [func New(cfg Config) *Agent] *)
Definition New (cfg : Config.t) : Agent :=
  let cfg :=
    if Config.ForecastDays cfg <=? 0
    then Config.mk (Config.LocationName cfg) 15 (Config.Weather cfg)
           (Config.Ollama cfg) (Config.TelegramToken cfg)
           (Config.TelegramChatID cfg)
    else cfg in
  mkAgent cfg.

(** [func formatTelegramTable(table string) string] *)
Definition formatTelegramTable (table : string) : string :=
  "```" ++ nl ++ table ++ "```".

(** [func fallbackLocation(name string) string] *)
Definition fallbackLocation `{TextLib} (name : string) : string :=
  if String.eqb (strings_TrimSpace name) "" then "the target location"
  else name.

Module TelegramMessage.
Record t : Type := mk
  { ChatID : string;
    Text : string;
    ParseMode : string }.
End TelegramMessage.

(** What a cycle does to the outside: lines on standard output (a format
    is kept as the source writes it, next to its arguments) and requests
    to the chat service. *)
Inductive value : Type :=
| VString (s : string)
| VInt (n : Z)
| VError (e : Go.error)
| VUntil (next : Time.t).   (* the duration [time.Until(next)] *)

Inductive event : Type :=
| Printf (format : string) (args : list value)
| Println (text : string)
| TelegramSend (url : string) (body : TelegramMessage.t).

(** What the outside answers during one pass of the loop of [Run]. *)
Record World : Type := mkWorld
  { DoneAtStart : bool;          (* [ctx.Done()] is closed at the top *)
    Post : string -> TelegramMessage.t -> option Go.error;
                                 (* [nil] for a request answered 200 *)
    Now : Time.t;                (* [time.Now().UTC()] after the cycle *)
    DoneWhileSleeping : bool }.  (* [ctx.Done()] wins the final select *)

(** [func sendTelegramMessage(config *Config, message string) error]: one
    request to the chat service, with the outcome of that attempt. *)
Definition sendTelegramMessage (w : World) (config : Config.t)
    (message : string) : IO.t event (option Go.error) :=
  let url := "https://api.telegram.org/bot" ++ Config.TelegramToken config
             ++ "/sendMessage" in
  let msg := TelegramMessage.mk (Config.TelegramChatID config) message
               "Markdown" in
  IO.emit (TelegramSend url msg) >> IO.ret (Post w url msg).

(** [a.cfg.TelegramToken != "" && a.cfg.TelegramChatID != ""] *)
Definition telegramConfigured (c : Config.t) : bool :=
  negb (String.eqb (Config.TelegramToken c) "")
  && negb (String.eqb (Config.TelegramChatID c) "").

(** The head of [Run]: the run time from the environment, 10:00 unless
    [WIND_CHECK_HOUR] and [WIND_CHECK_MINUTE] hold numbers in range. *)
Definition runTime (getenv : string -> string) : Z * Z :=
  let runHour := 10 in
  let runMinute := 0 in
  let runHour :=
    let h := getenv "WIND_CHECK_HOUR" in
    if negb (String.eqb h "") then
      match Strconv.Atoi h with
      | Some v => if (0 <=? v) && (v <? 24) then v else runHour
      | None => runHour
      end
    else runHour in
  let runMinute :=
    let m := getenv "WIND_CHECK_MINUTE" in
    if negb (String.eqb m "") then
      match Strconv.Atoi m with
      | Some v => if (0 <=? v) && (v <? 60) then v else runMinute
      | None => runMinute
      end
    else runMinute in
  (runHour, runMinute).

(** The tail of the loop of [Run]: [next] as it stands when the sleep
    begins. *)
Definition nextRun (now : Time.t) (runHour runMinute : Z) : Time.t :=
  let next := Time.Date (Time.Year now) (Time.Month now) (Time.Day now)
                runHour runMinute 0 0 in
  if negb (Time.Before now next) then Time.Add24Hours next else next.

(** How one pass of the loop ends: [Run] returns an error, or the sleep
    runs out and the loop goes round. *)
Inductive outcome : Type :=
| Returned (err : Go.error)
| NextCycle.

(** One pass of [for { ... }] in [Run], around the [cycle] of the variant
    (fetch, report, summary, messages). *)
Definition iteration
    (cycle : World -> Agent -> Forecaster -> OllamaClient -> IO.t event unit)
    (w : World) (a : Agent) (runHour runMinute : Z) : IO.t event outcome :=
  if DoneAtStart w then IO.ret (Returned Go.context_Err)
  else
    match Config.Weather (cfg a) with
    | None => IO.ret (Returned (Go.fmt_Errorf "weather client is missing" []))
    | Some fetch =>
        match Config.Ollama (cfg a) with
        | None =>
            IO.ret (Returned (Go.fmt_Errorf "ollama client is missing" []))
        | Some generate =>
            cycle w a fetch generate >>
            let now := Now w in
            let next := nextRun now runHour runMinute in
            IO.emit (Printf
              "Sleeping for %v until next run at %02d:%02d UTC...\n"
              [VUntil next; VInt runHour; VInt runMinute]) >>
            if DoneWhileSleeping w then IO.ret (Returned Go.context_Err)
            else IO.ret NextCycle
        end
    end.

(** The texts handed to the chat service in a trace, in order. *)
Fixpoint sentTexts (tr : list event) : list string :=
  match tr with
  | [] => []
  | TelegramSend _ body :: tr' => TelegramMessage.Text body :: sentTexts tr'
  | _ :: tr' => sentTexts tr'
  end.

End AgentBase.

(** The statement [deg = float64(int(deg+360) % 360)] that opens
    [degToCompass] in both variants of package agent, and [isEasterly]. *)
Definition normalizeDeg (deg : Q) : Q :=
  Go.float64_of_int (Go.rem (Go.int_of_float64 (deg + 360)%Q) 360).

(** The whole number of degrees inside it, which is what the classifiers
    compare with their thresholds. *)
Definition wholeDeg (deg : Q) : Z :=
  Go.rem (Go.int_of_float64 (deg + 360)%Q) 360.

(** ** src/unnamed/part_000: the wind table with four compass points *)

Module AgentPart000.
Import AgentBase.

(** [degToCompass]: N, S, E or W, with the wider ranges for E and W. *)
Definition degToCompass (deg : Q) : string :=
  let deg := normalizeDeg deg in
  if Go.fle 30 deg && Go.flt deg 150 then "E"
  else if Go.fle 210 deg && Go.flt deg 330 then "W"
  else if Go.fle 150 deg && Go.flt deg 210 then "S"
  else "N".

(** [func buildForecastTable(days []weather.ForecastDay) string] *)
Definition buildForecastTable `{TextLib} (days : list Weather.ForecastDay.t)
    : string :=
  fold_left
    (fun b day =>
       b ++ (time_Format "2006-01-02" (Weather.ForecastDay.Date day)
             ++ " | " ++ fmt_float "%8.1f" (Weather.ForecastDay.WindSpeedMax day)
             ++ " | " ++ fmt_float "%7.1f" (Weather.ForecastDay.WindGustMax day)
             ++ " | " ++ degToCompass (Weather.ForecastDay.WindDirMean day)
             ++ nl))
    days
    ("Date        | Wind Max | Gust Max | Dir" ++ nl
     ++ "------------+----------+---------+------" ++ nl).

(** [func buildPrompt(location string, days []weather.ForecastDay,
    table string) string] *)
Definition buildPrompt (location : string)
    (days : list Weather.ForecastDay.t) (table : string) : string :=
  "Summarize the next 15 days wind forecast for " ++ location
  ++ " in a very compact way:" ++ nl
  ++ tab ++ "- Predominant wind direction (just state " ++ dquote
  ++ "Predominant: E" ++ dquote ++ " or " ++ dquote ++ "W" ++ dquote
  ++ " or " ++ dquote ++ "N" ++ dquote ++ " etc.)" ++ nl
  ++ tab ++ "- List any significant wind direction changes with dates" ++ nl
  ++ tab ++ "- Highlight all periods with easterly winds (E, ENE, ESE, or SE) if any" ++ nl
  ++ tab ++ "- Keep it brief and suitable for a quick daily aviation risk check" ++ nl
  ++ nl
  ++ tab ++ "Tabular data:" ++ nl
  ++ tab ++ table ++ nl
  ++ tab.

(** The body of the loop of [Run] from [Fetch] to the last message. *)
Definition cycle `{TextLib} (w : World) (a : Agent) (fetch : Forecaster)
    (generate : OllamaClient) : IO.t event unit :=
  let c := cfg a in
  let (forecast, err) := fetch (Config.ForecastDays c) in
  match err with
  | Some e => IO.emit (Printf "fetch forecast: %v\n" [VError e])
  | None => IO.ret tt
  end >>
  let location := fallbackLocation (Config.LocationName c) in
  let report := buildForecastTable forecast in
  IO.emit (Printf "%d-day %s wind forecast (km/h):\n"
             [VInt (Z.of_nat (length forecast)); VString location]) >>
  IO.emit (Println report) >>
  let prompt := buildPrompt location forecast report in
  IO.emit (Println "\nPrompt sent to Ollama:\n----------------------") >>
  IO.emit (Println prompt) >>
  IO.emit (Println "----------------------") >>
  let (summary, err) := generate prompt in
  match err with
  | Some e =>
      IO.emit (Printf "Ollama failed: %v\n" [VError e]) >>
      if telegramConfigured c then
        err2 <~ sendTelegramMessage w c (formatTelegramTable report) ;;
        match err2 with
        | Some e2 =>
            IO.emit (Printf "Failed to send Telegram message: %v\n" [VError e2])
        | None => IO.emit (Println "Sent fallback wind table to Telegram.")
        end
      else IO.ret tt
  | None =>
      IO.emit (Println "\nOllama summary:") >>
      IO.emit (Println summary) >>
      if telegramConfigured c then
        err <~ sendTelegramMessage w c (formatTelegramTable report) ;;
        match err with
        | Some e =>
            IO.emit (Printf "Failed to send wind table to Telegram: %v\n"
                       [VError e])
        | None => IO.ret tt
        end >>
        err <~ sendTelegramMessage w c summary ;;
        match err with
        | Some e =>
            IO.emit (Printf "Failed to send Telegram message: %v\n" [VError e])
        | None => IO.ret tt
        end
      else IO.ret tt
  end.

End AgentPart000.

(** ** src/internal/agent/agent.go: the easterly table with two compass
       points *)

Module Agent.
Import AgentBase.

(** [degToCompass]: E or W. *)
Definition degToCompass (deg : Q) : string :=
  let deg := normalizeDeg deg in
  if Go.flt 0 deg && Go.flt deg 180 then "E" else "W".

(** [isEasterly]: the wind is from the east. *)
Definition isEasterly (deg : Q) : bool :=
  let deg := normalizeDeg deg in
  Go.flt 0 deg && Go.flt deg 180.

(** [func buildForecastTable(days []weather.ForecastDay) string] *)
Definition buildForecastTable `{TextLib} (days : list Weather.ForecastDay.t)
    : string :=
  fold_left
    (fun b day =>
       let eastMarker :=
         if isEasterly (Weather.ForecastDay.WindDirMean day)
         then " ✈️" else "   " in
       b ++ (time_Format "Mon 02 Jan" (Weather.ForecastDay.Date day)
             ++ " | " ++ fmt_float "%4.0f" (Weather.ForecastDay.WindSpeedMax day)
             ++ " | " ++ padRight 3 (degToCompass (Weather.ForecastDay.WindDirMean day))
             ++ " |" ++ eastMarker ++ nl))
    days
    ("Date       | Wind | Dir | East" ++ nl
     ++ "-----------+------+-----+-----" ++ nl).

(** [func buildPrompt(location string, _ []weather.ForecastDay,
    table string, easterlyAnalysis string) string] *)
Definition buildPrompt (location : string)
    (_ : list Weather.ForecastDay.t) (table easterlyAnalysis : string)
    : string :=
  location ++ " wind forecast. Easterly wind = planes overhead (✈️)." ++ nl
  ++ nl
  ++ easterlyAnalysis ++ nl
  ++ table ++ nl
  ++ "Summarize briefly: how many easterly days and when does wind change direction?".

(** [func countEasterlyDays(days []weather.ForecastDay) int] *)
Definition countEasterlyDays (days : list Weather.ForecastDay.t) : Z :=
  fold_left
    (fun count d =>
       if isEasterly (Weather.ForecastDay.WindDirMean d) then count + 1
       else count)
    days 0.

(** The label [dominant] of [buildEasterlyAnalysis]. *)
Definition dominantOf (eastCount westCount : Z) : string :=
  if eastCount >? westCount then "E ✈️"
  else if westCount >? eastCount then "W"
  else "Mixed".

(** The line that [buildEasterlyAnalysis] formats. *)
Definition analysisLine (dominant : string) (eastCount westCount : Z)
    : string :=
  "Dominant: " ++ dominant ++ " | East: " ++ itoa eastCount
  ++ " days | West: " ++ itoa westCount ++ " days" ++ nl.

(** [func buildEasterlyAnalysis(days []weather.ForecastDay) string] *)
Definition buildEasterlyAnalysis (days : list Weather.ForecastDay.t)
    : string :=
  let eastCount := countEasterlyDays days in
  let westCount := Z.of_nat (length days) - eastCount in
  let dominant := dominantOf eastCount westCount in
  analysisLine dominant eastCount westCount.

(** The body of the loop of [Run] from [Fetch] to the last message. *)
Definition cycle `{TextLib} (w : World) (a : Agent) (fetch : Forecaster)
    (generate : OllamaClient) : IO.t event unit :=
  let c := cfg a in
  let (forecast, err) := fetch (Config.ForecastDays c) in
  match err with
  | Some e => IO.emit (Printf "fetch forecast: %v\n" [VError e])
  | None => IO.ret tt
  end >>
  let location := fallbackLocation (Config.LocationName c) in
  let report := buildForecastTable forecast in
  let easterlyAnalysis := buildEasterlyAnalysis forecast in
  IO.emit (Printf "\n%d-day %s wind forecast (km/h):\n"
             [VInt (Z.of_nat (length forecast)); VString location]) >>
  IO.emit (Println report) >>
  IO.emit (Println easterlyAnalysis) >>
  let prompt := buildPrompt location forecast report easterlyAnalysis in
  IO.emit (Println "\nPrompt sent to Ollama:\n----------------------") >>
  IO.emit (Println prompt) >>
  IO.emit (Println "----------------------") >>
  let (summary, err) := generate prompt in
  match err with
  | Some e =>
      IO.emit (Printf "Ollama failed: %v\n" [VError e]) >>
      if telegramConfigured c then
        let fallbackMsg :=
          formatTelegramTable report ++ nl ++ easterlyAnalysis in
        err2 <~ sendTelegramMessage w c fallbackMsg ;;
        match err2 with
        | Some e2 =>
            IO.emit (Printf "Failed to send Telegram message: %v\n" [VError e2])
        | None => IO.emit (Println "Sent fallback wind table to Telegram.")
        end
      else IO.ret tt
  | None =>
      IO.emit (Println "\nOllama summary:") >>
      IO.emit (Println summary) >>
      if telegramConfigured c then
        let tableMsg :=
          formatTelegramTable report ++ nl ++ easterlyAnalysis in
        err <~ sendTelegramMessage w c tableMsg ;;
        match err with
        | Some e =>
            IO.emit (Printf "Failed to send wind table to Telegram: %v\n"
                       [VError e])
        | None => IO.ret tt
        end >>
        err <~ sendTelegramMessage w c summary ;;
        match err with
        | Some e =>
            IO.emit (Printf "Failed to send Telegram message: %v\n" [VError e])
        | None => IO.ret tt
        end
      else IO.ret tt
  end.

End Agent.

(** ** src/internal/weather/weather.go: the two requests of
       [OpenMeteoClient] *)

Module OpenMeteo.
Import Weather.

(** [*http.Response], as far as [Fetch] reads it; [Close] is the result
    of [resp.Body.Close()]. *)
Module Response.
Record t : Type := mk
  { StatusCode : Z;
    Status : string;
    Body : string;
    Close : option Go.error }.
End Response.

(** [*http.Client]: [Do(req)] for the request to a URL. *)
Definition HTTPClient : Type := string -> Response.t + Go.error.

Module OpenMeteoClient.
Record t : Type := mk
  { Latitude : Q;
    Longitude : Q;
    HTTPClient : option OpenMeteo.HTTPClient }.   (* [None] is nil *)
End OpenMeteoClient.

Module openMeteoHourly.
Record t : Type := mk
  { Time : list string;
    PrecipProb : list Z;
    Precip : list Q }.
End openMeteoHourly.

Module openMeteoResponse.
Record t : Type := mk
  { Daily : option openMeteoDaily.t;     (* [None] is the nil pointer *)
    Hourly : option openMeteoHourly.t }.
End openMeteoResponse.

(** The functions of packages net/http, net/url, fmt and encoding/json that
    the two requests go through. *)
Class NetLib : Type :=
  { http_DefaultClient : HTTPClient;
    http_NewRequest : string -> option Go.error;   (* [nil] for a URL it accepts *)
    url_Values_Encode : list (string * string) -> string;
    fmt_f : Q -> string;                           (* the verb [%f] *)
    json_Decode_wind : string -> openMeteoResponse.t + Go.error;
    json_Decode_rain : string -> rainResponse.t + Go.error }.

Definition openMeteoBaseURL : string := "https://api.open-meteo.com/v1/forecast".

(** What a request does to the outside. *)
Inductive event : Type :=
| Request (url : string)
| CloseWarning (cerr : Go.error).   (* [warning: close response body: %v] *)

(** The part of both methods from [client.Do(req)] to the return, with the
    deferred close of the body; [decoded] is what follows the status
    check. *)
Definition doRequest `{NetLib} {A : Type} (c : OpenMeteoClient.t)
    (query : list (string * string)) (decoded : string -> Go.result A)
    : IO.t event (Go.result A) :=
  let client :=
    match OpenMeteoClient.HTTPClient c with
    | Some client => client
    | None => http_DefaultClient
    end in
  let url := openMeteoBaseURL ++ "?" ++ url_Values_Encode query in
  match http_NewRequest url with
  | Some err => IO.ret (Go.Err (Go.fmt_Errorf_w "build request: %w" [] err))
  | None =>
      IO.emit (Request url) >>
      match client url with
      | inr err => IO.ret (Go.Err (Go.fmt_Errorf_w "call open-meteo: %w" [] err))
      | inl resp =>
          let result :=
            if negb (Response.StatusCode resp =? 200)
            then Go.Err (Go.fmt_Errorf "open-meteo returned %s"
                           [Response.Status resp])
            else decoded (Response.Body resp) in
          match Response.Close resp with
          | Some cerr => IO.emit (CloseWarning cerr)
          | None => IO.ret tt
          end >>
          IO.ret result
      end
  end.

(** [func (c *OpenMeteoClient) Fetch(ctx context.Context, days int)
    ([]ForecastDay, error)] *)
Definition Fetch `{NetLib} (c : OpenMeteoClient.t) (days : Z)
    : IO.t event (Go.result (list ForecastDay.t)) :=
  if days <? 1 then IO.ret (Go.Err (Go.errors_New "days must be >= 1"))
  else
    let query :=
      [("latitude", fmt_f (OpenMeteoClient.Latitude c));
       ("longitude", fmt_f (OpenMeteoClient.Longitude c));
       ("daily", "windspeed_10m_max,windgusts_10m_max,winddirection_10m_dominant");
       ("forecast_days", itoa days);
       ("timezone", "auto")] in
    doRequest c query
      (fun body =>
         match json_Decode_wind body with
         | inr err =>
             Go.Err (Go.fmt_Errorf_w "decode open-meteo response: %w" [] err)
         | inl payload =>
             match openMeteoResponse.Daily payload with
             | None =>
                 Go.Err (Go.errors_New "open-meteo response missing daily block")
             | Some daily => toForecastDays daily
             end
         end).

(** [func (c *OpenMeteoClient) FetchRain(ctx context.Context, days int)
    ([]RainForecast, error)] *)
Definition FetchRain `{NetLib} (c : OpenMeteoClient.t) (days : Z)
    : IO.t event (Go.result (list RainForecast.t)) :=
  if days <? 1 then IO.ret (Go.Err (Go.errors_New "days must be >= 1"))
  else
    let query :=
      [("latitude", fmt_f (OpenMeteoClient.Latitude c));
       ("longitude", fmt_f (OpenMeteoClient.Longitude c));
       ("daily", "precipitation_sum,precipitation_probability_max");
       ("hourly", "precipitation_probability,precipitation");
       ("forecast_days", itoa days);
       ("timezone", "Europe/London")] in
    doRequest c query
      (fun body =>
         match json_Decode_rain body with
         | inr err =>
             Go.Err (Go.fmt_Errorf_w "decode open-meteo response: %w" [] err)
         | inl payload => toRainForecasts payload
         end).

End OpenMeteo.

(** * Theorems *)

(** ** The compass classifiers *)

Section Compass.

Local Open Scope Q_scope.

Lemma fle_inject (a b : Z) :
  Go.fle (inject_Z a) (inject_Z b) = (a <=? b)%Z.
Proof.
  unfold Go.fle, Qle_bool; simpl. now rewrite !Z.mul_1_r.
Qed.

Lemma flt_inject (a b : Z) :
  Go.flt (inject_Z a) (inject_Z b) = (a <? b)%Z.
Proof.
  unfold Go.flt, Qle_bool; simpl. rewrite !Z.mul_1_r.
  symmetry. apply Z.ltb_antisym.
Qed.

(** Truncation of a float that lies in [[k, k+1)] for a natural [k]. *)
Lemma int_of_float64_between (q : Q) (k : Z) :
  (0 <= k)%Z -> inject_Z k <= q -> q < inject_Z (k + 1) ->
  Go.int_of_float64 q = k.
Proof.
  destruct q as [n d]. unfold Qle, Qlt, Go.int_of_float64; simpl.
  intros Hk Hlo Hhi.
  rewrite Z.quot_div_nonneg by nia.
  symmetry. apply (Z.div_unique_pos n (Zpos d) k (n - k * Zpos d)); nia.
Qed.

(** Truncation of a float above [-1] is not negative. *)
Lemma int_of_float64_nonneg (q : Q) :
  - (1) < q -> (0 <= Go.int_of_float64 q)%Z.
Proof.
  destruct q as [n d]. unfold Qlt, Go.int_of_float64; simpl. intros H.
  destruct (Z_lt_le_dec n 0) as [Hn | Hn].
  - assert (Hq : (n ÷ Zpos d = 0)%Z) by (apply Z.quot_small_iff; lia).
    rewrite Hq. lia.
  - apply Z.quot_pos; lia.
Qed.

Lemma normalizeDeg_whole (deg : Q) :
  normalizeDeg deg = inject_Z (wholeDeg deg).
Proof. reflexivity. Qed.

Lemma wholeDeg_inject (r : Z) :
  (0 <= r < 360)%Z -> wholeDeg (inject_Z r) = r.
Proof.
  intros Hr. unfold wholeDeg, Go.rem.
  rewrite (int_of_float64_between (inject_Z r + 360) (r + 360)).
  - rewrite Z.rem_mod_nonneg by lia.
    rewrite <- (Z.mul_1_l 360) at 1.
    rewrite Z.mod_add by lia. apply Z.mod_small; lia.
  - lia.
  - unfold Qle; simpl. lia.
  - unfold Qlt; simpl. lia.
Qed.

(** From [-361] (excluded) on, the whole degrees are in [0..359]. *)
Lemma wholeDeg_range (deg : Q) :
  - (361) < deg -> (0 <= wholeDeg deg < 360)%Z.
Proof.
  intros H. unfold wholeDeg, Go.rem.
  assert (Hn : (0 <= Go.int_of_float64 (deg + 360))%Z).
  { apply int_of_float64_nonneg.
    destruct deg as [n d]. unfold Qlt in *; simpl in *. lia. }
  rewrite Z.rem_mod_nonneg by lia.
  apply Z.mod_pos_bound; lia.
Qed.




(** Both classifiers decide on the whole degrees. *)
Lemma degToCompass4_whole (deg : Q) :
  AgentPart000.degToCompass deg =
  let n := wholeDeg deg in
  if ((30 <=? n) && (n <? 150))%Z then "E"
  else if ((210 <=? n) && (n <? 330))%Z then "W"
  else if ((150 <=? n) && (n <? 210))%Z then "S"
  else "N".
Proof.
  unfold AgentPart000.degToCompass. rewrite normalizeDeg_whole. cbv zeta.
  change 30 with (inject_Z 30). change 150 with (inject_Z 150).
  change 210 with (inject_Z 210). change 330 with (inject_Z 330).
  now rewrite !fle_inject, !flt_inject.
Qed.

Lemma isEasterly_whole (deg : Q) :
  Agent.isEasterly deg = ((0 <? wholeDeg deg) && (wholeDeg deg <? 180))%Z.
Proof.
  unfold Agent.isEasterly. rewrite normalizeDeg_whole. cbv zeta.
  change 0 with (inject_Z 0). change 180 with (inject_Z 180).
  now rewrite !flt_inject.
Qed.

Lemma degToCompass2_isEasterly (deg : Q) :
  Agent.degToCompass deg = if Agent.isEasterly deg then "E" else "W".
Proof. reflexivity. Qed.

(** From [-361] (excluded) on, [normalizeDeg] lands in [[0, 360)], it is
    idempotent, and both classifiers give the same answer before and
    after it. *)
Lemma normalizeDeg_from_minus_361 (deg : Q) :
  - (361) < deg ->
  0 <= normalizeDeg deg /\ normalizeDeg deg < 360
  /\ normalizeDeg (normalizeDeg deg) = normalizeDeg deg
  /\ AgentPart000.degToCompass (normalizeDeg deg) = AgentPart000.degToCompass deg
  /\ Agent.degToCompass (normalizeDeg deg) = Agent.degToCompass deg.
Proof.
  intros H. pose proof (wholeDeg_range deg H) as Hr.
  assert (Hw : wholeDeg (normalizeDeg deg) = wholeDeg deg).
  { rewrite normalizeDeg_whole. now apply wholeDeg_inject. }
  repeat split.
  - rewrite normalizeDeg_whole. change 0 with (inject_Z 0).
    rewrite <- Zle_Qle. lia.
  - rewrite normalizeDeg_whole. change 360 with (inject_Z 360).
    rewrite <- Zlt_Qlt. lia.
  - rewrite (normalizeDeg_whole (normalizeDeg deg)), Hw.
    symmetry. apply normalizeDeg_whole.
  - now rewrite !degToCompass4_whole, Hw.
  - now rewrite !degToCompass2_isEasterly, !isEasterly_whole, Hw.
Qed.

(** C1, at angles below -360: the normalization of [degToCompass] leaves
    -400 at -40, outside [[0, 360)]; the four-point classifier answers N
    for -400 and W for its normalization, the two-point classifier answers
    W for -600 and E for its normalization. *)
Theorem C1_normalize_below_minus_360 :
  normalizeDeg (- (400)) = - (40)
  /\ ~ 0 <= normalizeDeg (- (400))
  /\ AgentPart000.degToCompass (- (400)) = "N"
  /\ AgentPart000.degToCompass (normalizeDeg (- (400))) = "W"
  /\ normalizeDeg (- (600)) = - (240)
  /\ Agent.degToCompass (- (600)) = "W"
  /\ Agent.degToCompass (normalizeDeg (- (600))) = "E".
Proof.
  repeat split; try reflexivity.
  intros H. vm_compute in H. now apply H.
Qed.




Lemma isEasterly_iff_E (x : Q) :
  Agent.isEasterly x = true <-> Agent.degToCompass x = "E".
Proof.
  rewrite degToCompass2_isEasterly.
  destruct (Agent.isEasterly x); split; intros H; try reflexivity; discriminate H.
Qed.






End Compass.

(** ** The constructor *)

Section Constructor.

Import AgentBase.

(** C10: [New] stores 15 forecast days when the configuration has zero or
    fewer, the configured number otherwise, and every other field as it is
    given. *)
Theorem C10_New_forecast_days (c : Config.t) :
  (Config.ForecastDays c <= 0 -> Config.ForecastDays (cfg (New c)) = 15)
  /\ (0 < Config.ForecastDays c ->
      Config.ForecastDays (cfg (New c)) = Config.ForecastDays c)
  /\ Config.LocationName (cfg (New c)) = Config.LocationName c
  /\ Config.Weather (cfg (New c)) = Config.Weather c
  /\ Config.Ollama (cfg (New c)) = Config.Ollama c
  /\ Config.TelegramToken (cfg (New c)) = Config.TelegramToken c
  /\ Config.TelegramChatID (cfg (New c)) = Config.TelegramChatID c.
Proof.
  unfold New.
  destruct (Z.leb_spec (Config.ForecastDays c) 0) as [H | H]; simpl;
    repeat split; try reflexivity; intros H'; try reflexivity; lia.
Qed.

Lemma C10_New_forecast_days_witness :
  Config.ForecastDays (cfg (New (Config.mk "Heathrow" (- 3) None None "" ""))) = 15
  /\ Config.ForecastDays (cfg (New (Config.mk "Heathrow" 7 None None "" ""))) = 7.
Proof.
  split.
  - apply (C10_New_forecast_days (Config.mk "Heathrow" (- 3) None None "" "")).
    simpl. lia.
  - apply (C10_New_forecast_days (Config.mk "Heathrow" 7 None None "" "")).
    simpl. lia.
Defined.

End Constructor.

(** ** The aggregate analysis *)

Section Analysis.

Import AgentBase.

(** A day whose mean direction is easterly. *)
Local Abbreviation easterlyDay :=
  (fun d : Weather.ForecastDay.t =>
     Agent.isEasterly (Weather.ForecastDay.WindDirMean d)).

Lemma countEasterlyDays_from (days : list Weather.ForecastDay.t) (acc : Z) :
  fold_left
    (fun count d =>
       if Agent.isEasterly (Weather.ForecastDay.WindDirMean d) then count + 1
       else count)
    days acc
  = acc + Z.of_nat (length (filter easterlyDay days)).
Proof.
  revert acc. induction days as [| d days IH]; intros acc; simpl.
  - lia.
  - rewrite IH.
    destruct (Agent.isEasterly (Weather.ForecastDay.WindDirMean d)); simpl length; lia.
Qed.

Lemma countEasterlyDays_filter (days : list Weather.ForecastDay.t) :
  Agent.countEasterlyDays days = Z.of_nat (length (filter easterlyDay days)).
Proof. unfold Agent.countEasterlyDays. now rewrite countEasterlyDays_from. Qed.

Lemma filter_all {A : Type} (f : A -> bool) (l : list A) :
  Forall (fun x => f x = true) l -> filter f l = l.
Proof.
  induction 1 as [| x l Hx _ IH]; simpl; [reflexivity |].
  now rewrite Hx, IH.
Qed.

(** C9: [eastCount] is the number of days that are easterly under the
    two-point policy, [westCount] is the rest, and the label is East when
    East has more days, West when West has more, Mixed otherwise. When every
    day classifies East there is no West day, and the label is East as soon
    as there is a day at all; without days both counts are 0 and the label is
    Mixed. *)
Theorem C9_aggregate_analysis (days : list Weather.ForecastDay.t) :
  let eastCount := Z.of_nat (length (filter easterlyDay days)) in
  let westCount := Z.of_nat (length days) - eastCount in
  Agent.countEasterlyDays days = eastCount
  /\ Agent.buildEasterlyAnalysis days
     = Agent.analysisLine (Agent.dominantOf eastCount westCount)
         eastCount westCount
  /\ (eastCount > westCount -> Agent.dominantOf eastCount westCount = "E ✈️")
  /\ (westCount > eastCount -> Agent.dominantOf eastCount westCount = "W")
  /\ (eastCount = westCount -> Agent.dominantOf eastCount westCount = "Mixed")
  /\ (Forall (fun d => Agent.degToCompass (Weather.ForecastDay.WindDirMean d) = "E")
        days ->
      westCount = 0
      /\ (days <> [] -> Agent.dominantOf eastCount westCount = "E ✈️"))
  /\ Agent.countEasterlyDays [] = 0
  /\ Agent.buildEasterlyAnalysis [] = Agent.analysisLine "Mixed" 0 0.
Proof.
  intros eastCount westCount.
  assert (Hc : Agent.countEasterlyDays days = eastCount)
    by apply countEasterlyDays_filter.
  split; [exact Hc |].
  split; [unfold Agent.buildEasterlyAnalysis; now rewrite Hc |].
  unfold Agent.dominantOf.
  split; [| split; [| split; [| split; [| split; reflexivity]]]].
  - intros H. destruct (Z.gtb_spec eastCount westCount); [reflexivity | lia].
  - intros H. destruct (Z.gtb_spec eastCount westCount); [lia |].
    destruct (Z.gtb_spec westCount eastCount); [reflexivity | lia].
  - intros H. destruct (Z.gtb_spec eastCount westCount); [lia |].
    destruct (Z.gtb_spec westCount eastCount); [lia | reflexivity].
  - intros Hall.
    assert (Hf : filter easterlyDay days = days).
    { apply filter_all. eapply Forall_impl; [| exact Hall].
      intros d Hd. now apply isEasterly_iff_E. }
    assert (Hw : westCount = 0) by (unfold westCount, eastCount; rewrite Hf; lia).
    split; [exact Hw |].
    intros Hne.
    assert (0 < eastCount).
    { unfold eastCount. rewrite Hf. destruct days; [congruence | simpl length; lia]. }
    destruct (Z.gtb_spec eastCount westCount); [reflexivity | lia].
Qed.

Lemma C9_aggregate_analysis_witness :
  let east := Weather.ForecastDay.mk (Time.mk 2026 3 14 0 0 0 0) 12 20 90 in
  let west := Weather.ForecastDay.mk (Time.mk 2026 3 15 0 0 0 0) 9 15 (2255 # 10) in
  Agent.buildEasterlyAnalysis [east; west] = Agent.analysisLine "Mixed" 1 1
  /\ Agent.buildEasterlyAnalysis [east; west; west] = Agent.analysisLine "W" 1 2
  /\ Agent.buildEasterlyAnalysis [east; east] = Agent.analysisLine "E ✈️" 2 0.
Proof.
  intros east west.
  split; [| split].
  - destruct (C9_aggregate_analysis [east; west]) as (_ & Hline & _ & _ & Hmixed & _).
    rewrite Hline. rewrite Hmixed; reflexivity.
  - destruct (C9_aggregate_analysis [east; west; west]) as (_ & Hline & _ & Hwest & _).
    rewrite Hline. rewrite Hwest; reflexivity.
  - destruct (C9_aggregate_analysis [east; east]) as (_ & Hline & Heast & _ & _ & Hall & _).
    rewrite Hline.
    assert (HE : Forall (fun d => Agent.degToCompass (Weather.ForecastDay.WindDirMean d) = "E")
                   [east; east])
      by (repeat constructor).
    destruct (Hall HE) as [Hw Hd].
    rewrite Hd; [reflexivity | discriminate].
Defined.

End Analysis.

(** ** The next trigger instant *)

Section Schedule.

Import AgentBase.

Lemma lexLt_cons (x y : Z) (a b : list Z) :
  Time.lexLt (x :: a) (y :: b) = (x <? y) || ((x =? y) && Time.lexLt a b).
Proof. reflexivity. Qed.

(** The next calendar day is later than any instant of the day before. *)
Lemma Before_Add24Hours (now next : Time.t) :
  Time.Year now = Time.Year next -> Time.Month now = Time.Month next ->
  Time.Day now = Time.Day next ->
  Time.Before now (Time.Add24Hours next) = true.
Proof.
  intros Hy Hm Hd. unfold Time.Before, Time.Add24Hours, Time.fields.
  rewrite Hy, Hm, Hd.
  destruct (Time.Day next <? Time.daysIn (Time.Month next) (Time.Year next));
    [| destruct (Time.Month next <? 12)]; cbn [Time.Year Time.Month Time.Day];
    rewrite !lexLt_cons.
  - rewrite !Z.eqb_refl. replace (Time.Day next <? Time.Day next + 1) with true
      by (symmetry; apply Z.ltb_lt; lia).
    simpl. now rewrite !orb_true_r.
  - rewrite !Z.eqb_refl. replace (Time.Month next <? Time.Month next + 1) with true
      by (symmetry; apply Z.ltb_lt; lia).
    simpl. now rewrite !orb_true_r.
  - replace (Time.Year next <? Time.Year next + 1) with true
      by (symmetry; apply Z.ltb_lt; lia).
    reflexivity.
Qed.

(** C7: the next trigger is today at [runHour:runMinute] when that instant
    is strictly after the current time, and that instant plus one day
    otherwise, also when the current time is the trigger instant itself; in
    both cases it is strictly after the current time. At 09:00 with the
    trigger at 10:00 it is today 10:00, at 10:01 it is tomorrow 10:00. *)
Theorem C7_next_trigger (now : Time.t) (runHour runMinute : Z) :
  let today := Time.Date (Time.Year now) (Time.Month now) (Time.Day now)
                 runHour runMinute 0 0 in
  (Time.Before now today = true -> nextRun now runHour runMinute = today)
  /\ (Time.Before now today = false ->
      nextRun now runHour runMinute = Time.Add24Hours today)
  /\ (now = today -> nextRun now runHour runMinute = Time.Add24Hours today)
  /\ Time.Before now (nextRun now runHour runMinute) = true
  /\ nextRun (Time.mk 2026 3 14 9 0 0 0) 10 0 = Time.mk 2026 3 14 10 0 0 0
  /\ nextRun (Time.mk 2026 3 14 10 1 0 0) 10 0 = Time.mk 2026 3 15 10 0 0 0
  /\ nextRun (Time.mk 2026 3 14 10 0 0 0) 10 0 = Time.mk 2026 3 15 10 0 0 0
  /\ nextRun (Time.mk 2026 12 31 23 59 59 5) 10 0 = Time.mk 2027 1 1 10 0 0 0.
Proof.
  intros today.
  assert (Hirr : forall x, Time.Before x x = false).
  { intros x. unfold Time.Before, Time.fields. rewrite !lexLt_cons.
    rewrite !Z.ltb_irrefl, !Z.eqb_refl. reflexivity. }
  unfold nextRun. fold today.
  split; [| split; [| split; [| split; [| repeat split]]]].
  - intros H. now rewrite H.
  - intros H. now rewrite H.
  - intros H. rewrite <- H at 1. now rewrite Hirr.
  - destruct (Time.Before now today) eqn:E; simpl; [exact E |].
    apply Before_Add24Hours; reflexivity.
Qed.

(** The run time read from the environment is always a time of day, so
    the call of [time.Date] in [nextRun] gets arguments in range. *)
Lemma runTime_in_range (getenv : string -> string) :
  0 <= fst (runTime getenv) < 24 /\ 0 <= snd (runTime getenv) < 60.
Proof.
  unfold runTime. cbn [fst snd]. split.
  - destruct (negb (String.eqb (getenv "WIND_CHECK_HOUR") "")); [| lia].
    destruct (Strconv.Atoi (getenv "WIND_CHECK_HOUR")) as [v |]; [| lia].
    destruct (Z.leb_spec 0 v), (Z.ltb_spec v 24); simpl; lia.
  - destruct (negb (String.eqb (getenv "WIND_CHECK_MINUTE") "")); [| lia].
    destruct (Strconv.Atoi (getenv "WIND_CHECK_MINUTE")) as [v |]; [| lia].
    destruct (Z.leb_spec 0 v), (Z.ltb_spec v 60); simpl; lia.
Qed.

Lemma C7_next_trigger_witness :
  nextRun (Time.mk 2026 2 28 9 30 15 0) 10 0 = Time.mk 2026 2 28 10 0 0 0
  /\ nextRun (Time.mk 2026 2 28 10 0 0 1) 10 0 = Time.mk 2026 3 1 10 0 0 0.
Proof.
  split.
  - apply (C7_next_trigger (Time.mk 2026 2 28 9 30 15 0) 10 0). reflexivity.
  - refine (proj1 (proj2 (C7_next_trigger (Time.mk 2026 2 28 10 0 0 1) 10 0)) _).
    reflexivity.
Defined.

End Schedule.

(** ** The wind normalizer *)

Section NormalizeWind.

Import Weather.
Local Open Scope list_scope.

Lemma ParseDate_cases (s : string) :
  (exists date, Time.ParseDate s = Go.Ok date)
  \/ Time.ParseDate s = Go.Err (Go.time_ParseError "2006-01-02" s).
Proof.
  unfold Time.ParseDate.
  destruct (Time.parseYMD s) as [[[[y m] dd] [| c rest]] |]; auto.
  destruct (Time.dayInRange y m dd); eauto.
Qed.

Lemma skipn_cons_nth {A : Type} (l : list A) (idx : nat) (x : A) (rest : list A) :
  skipn idx l = x :: rest -> nth_error l idx = Some x /\ skipn (S idx) l = rest.
Proof.
  revert l. induction idx as [| idx IH]; intros [| a l] H; simpl in H; try discriminate.
  - inversion H; subst. now split.
  - destruct (IH l H) as [H1 H2]. split; [exact H1 | exact H2].
Qed.

Lemma skipn_cons_lt {A : Type} (l : list A) (idx : nat) (x : A) (rest : list A) :
  skipn idx l = x :: rest -> (idx < length l)%nat.
Proof.
  intros H. apply skipn_cons_nth in H. destruct H as [H _].
  apply nth_error_Some. congruence.
Qed.

Lemma nth_error_lt {A : Type} (l : list A) (idx : nat) :
  (idx < length l)%nat -> exists a, nth_error l idx = Some a.
Proof.
  intros H. destruct (nth_error l idx) eqn:E; [eauto |].
  apply nth_error_None in E. lia.
Qed.

(** The record that the loop appends for the date at index [i]. *)
Local Abbreviation dayAt d i s day :=
  (exists date sp gu di,
     Time.ParseDate s = Go.Ok date
     /\ nth_error (openMeteoDaily.WindSpeedMax d) i = Some sp
     /\ nth_error (openMeteoDaily.WindGustMax d) i = Some gu
     /\ nth_error (openMeteoDaily.WindDirMean d) i = Some di
     /\ day = ForecastDay.mk date sp gu di).

(** The loop over the dates from [idx] on, once the four arrays are known
    to have one length: it stops with the parse error of the first date
    that does not parse, or appends one record per date, in order. *)
Lemma forecastLoop_spec (d : openMeteoDaily.t) :
  length (openMeteoDaily.Time d) = length (openMeteoDaily.WindSpeedMax d) ->
  length (openMeteoDaily.Time d) = length (openMeteoDaily.WindGustMax d) ->
  length (openMeteoDaily.Time d) = length (openMeteoDaily.WindDirMean d) ->
  forall (rest : list string) (idx : nat) (out : list ForecastDay.t),
    skipn idx (openMeteoDaily.Time d) = rest ->
    (exists s e, In s rest /\ Time.ParseDate s = Go.Err e
       /\ forecastLoop d idx rest out
          = Go.Err (Go.fmt_Errorf_w "parse date %q: %w" [s] e))
    \/ (exists out', forecastLoop d idx rest out = Go.Ok (out ++ out')%list
          /\ length out' = length rest
          /\ forall k s, nth_error rest k = Some s ->
               exists day, nth_error out' k = Some day
                           /\ dayAt d (idx + k) s day).
Proof.
  intros Hs Hg Hd.
  induction rest as [| s rest IH]; intros idx out Hskip.
  - right. exists []. simpl. rewrite app_nil_r. repeat split.
    intros [| k] s' H; discriminate H.
  - pose proof (skipn_cons_lt _ _ _ _ Hskip) as Hlt.
    destruct (skipn_cons_nth _ _ _ _ Hskip) as [Hnth Hskip'].
    destruct (nth_error_lt (openMeteoDaily.WindSpeedMax d) idx) as [sp Hsp]; [lia |].
    destruct (nth_error_lt (openMeteoDaily.WindGustMax d) idx) as [gu Hgu]; [lia |].
    destruct (nth_error_lt (openMeteoDaily.WindDirMean d) idx) as [di Hdi]; [lia |].
    cbn [forecastLoop]. unfold Go.index, Go.bind.
    rewrite Hnth.
    destruct (ParseDate_cases s) as [[date Hp] | Hp]; rewrite Hp.
    + rewrite Hsp, Hgu, Hdi.
      destruct (IH (S idx) (out ++ [ForecastDay.mk date sp gu di]) Hskip')
        as [(s' & e & Hin & Hpe & Hloop) | (out' & Hloop & Hlen & Hall)].
      * left. exists s', e. repeat split; [now right | exact Hpe | exact Hloop].
      * right. exists (ForecastDay.mk date sp gu di :: out').
        rewrite Hloop, <- app_assoc. simpl. repeat split; [now rewrite Hlen |].
        intros [| k] s'' Hk; simpl in Hk.
        -- inversion Hk; subst s''. exists (ForecastDay.mk date sp gu di).
           split; [reflexivity |]. rewrite Nat.add_0_r.
           exists date, sp, gu, di. now repeat split.
        -- destruct (Hall k s'' Hk) as (day & Hday & Hat).
           exists day. split; [exact Hday |].
           now replace (idx + S k)%nat with (S idx + k)%nat by lia.
    + left. exists s, (Go.time_ParseError "2006-01-02" s).
      repeat split; [now left | exact Hp].
Qed.

(** The three length comparisons that open [toForecastDays]. *)
Lemma toForecastDays_checked (d : openMeteoDaily.t) :
  length (openMeteoDaily.Time d) <> 0%nat ->
  length (openMeteoDaily.Time d) = length (openMeteoDaily.WindSpeedMax d) ->
  length (openMeteoDaily.Time d) = length (openMeteoDaily.WindGustMax d) ->
  length (openMeteoDaily.Time d) = length (openMeteoDaily.WindDirMean d) ->
  toForecastDays d = forecastLoop d 0 (openMeteoDaily.Time d) [].
Proof.
  intros Hn Hs Hg Hd. unfold toForecastDays.
  destruct (Nat.eqb_spec (length (openMeteoDaily.Time d)) 0); [contradiction |].
  rewrite <- Hs, <- Hg, <- Hd, Nat.eqb_refl. reflexivity.
Qed.

(** C4: [toForecastDays] returns the empty-data error for no dates; the
    shape error when one of the three metric arrays has another length than
    the dates; the date-parse error, with the date, when a date does not
    parse; and otherwise one record per date, in the order of the dates, with
    the metrics at the same index. It never panics. Three dates with metric
    arrays of length 2 give the shape error. *)
Theorem C4_toForecastDays (d : openMeteoDaily.t) :
  let times := openMeteoDaily.Time d in
  let sameLength :=
    length times = length (openMeteoDaily.WindSpeedMax d)
    /\ length times = length (openMeteoDaily.WindGustMax d)
    /\ length times = length (openMeteoDaily.WindDirMean d) in
  (times = [] ->
   toForecastDays d = Go.Err (Go.errors_New "no daily data returned"))
  /\ (times <> [] -> ~ sameLength ->
      toForecastDays d = Go.Err (Go.errors_New "open-meteo arrays differ in length"))
  /\ (times <> [] -> sameLength ->
      Exists (fun s => forall date, Time.ParseDate s <> Go.Ok date) times ->
      exists s e, In s times /\ Time.ParseDate s = Go.Err e
        /\ toForecastDays d = Go.Err (Go.fmt_Errorf_w "parse date %q: %w" [s] e))
  /\ (times <> [] -> sameLength ->
      Forall (fun s => exists date, Time.ParseDate s = Go.Ok date) times ->
      exists out, toForecastDays d = Go.Ok out)
  /\ (forall out, toForecastDays d = Go.Ok out ->
      length out = length times
      /\ forall i s, nth_error times i = Some s ->
           exists day, nth_error out i = Some day /\ dayAt d i s day)
  /\ (forall msg, toForecastDays d <> Go.Panic msg)
  /\ toForecastDays
       (openMeteoDaily.mk ["2026-03-14"; "2026-03-15"; "2026-03-16"]
          [12; 9]%Q [20; 15]%Q [90; 225]%Q)
     = Go.Err (Go.errors_New "open-meteo arrays differ in length")
  /\ toForecastDays (openMeteoDaily.mk [] [] [] [])
     = Go.Err (Go.errors_New "no daily data returned").
Proof.
  intros times sameLength.
  assert (Hloop : times <> [] -> sameLength ->
                  toForecastDays d = forecastLoop d 0 times []
                  /\ ((exists s e, In s times /\ Time.ParseDate s = Go.Err e
                         /\ forecastLoop d 0 times []
                            = Go.Err (Go.fmt_Errorf_w "parse date %q: %w" [s] e))
                      \/ (exists out', forecastLoop d 0 times [] = Go.Ok out'
                            /\ length out' = length times
                            /\ forall k s, nth_error times k = Some s ->
                                 exists day, nth_error out' k = Some day
                                             /\ dayAt d k s day))).
  { intros Hne (Hs & Hg & Hd).
    split.
    - apply toForecastDays_checked; auto.
      subst times. destruct (openMeteoDaily.Time d); [congruence | discriminate].
    - exact (forecastLoop_spec d Hs Hg Hd times 0%nat [] eq_refl). }
  assert (Hdec : times = [] \/ (times <> [] /\ ~ sameLength)
                 \/ (times <> [] /\ sameLength)).
  { destruct times as [| s0 ts] eqn:E; [now left | right].
    assert (Hne : s0 :: ts <> []) by discriminate.
    unfold sameLength.
    destruct (Nat.eq_dec (length (s0 :: ts)) (length (openMeteoDaily.WindSpeedMax d)));
      [| left; split; [exact Hne | tauto]].
    destruct (Nat.eq_dec (length (s0 :: ts)) (length (openMeteoDaily.WindGustMax d)));
      [| left; split; [exact Hne | tauto]].
    destruct (Nat.eq_dec (length (s0 :: ts)) (length (openMeteoDaily.WindDirMean d)));
      [| left; split; [exact Hne | tauto]].
    right. tauto. }
  assert (Hempty : times = [] ->
                   toForecastDays d = Go.Err (Go.errors_New "no daily data returned")).
  { intros H. unfold toForecastDays. fold times. now rewrite H. }
  assert (Hshape : times <> [] -> ~ sameLength ->
                   toForecastDays d
                   = Go.Err (Go.errors_New "open-meteo arrays differ in length")).
  { intros Hne Hns. unfold toForecastDays. fold times.
    destruct (Nat.eqb_spec (length times) 0) as [H0 | H0].
    - destruct times; [congruence | discriminate H0].
    - destruct (Nat.eqb_spec (length times) (length (openMeteoDaily.WindSpeedMax d)));
        simpl; [| reflexivity].
      destruct (Nat.eqb_spec (length times) (length (openMeteoDaily.WindGustMax d)));
        simpl; [| reflexivity].
      destruct (Nat.eqb_spec (length times) (length (openMeteoDaily.WindDirMean d)));
        simpl; [| reflexivity].
      exfalso. apply Hns. unfold sameLength. tauto. }
  split; [exact Hempty |].
  split; [exact Hshape |].
  split; [| split; [| split; [| split; [| split; reflexivity]]]].
  - intros Hne Hsame Hex.
    destruct (Hloop Hne Hsame) as [Heq [(s & e & Hin & Hp & Hl) | (out' & Hl & _ & Hall)]].
    + exists s, e. rewrite Heq. auto.
    + exfalso. apply Exists_exists in Hex. destruct Hex as (s & Hin & Hbad).
      apply In_nth_error in Hin. destruct Hin as [k Hk].
      destruct (Hall k s Hk) as (day & _ & date & sp & gu & di & Hp & _).
      exact (Hbad date Hp).
  - intros Hne Hsame Hall.
    destruct (Hloop Hne Hsame) as [Heq [(s & e & Hin & Hp & Hl) | (out' & Hl & _)]].
    + exfalso. rewrite Forall_forall in Hall.
      destruct (Hall s Hin) as [date Hd]. congruence.
    + exists out'. now rewrite Heq.
  - intros out Hout.
    destruct Hdec as [H | [[Hne Hns] | [Hne Hsame]]].
    + rewrite (Hempty H) in Hout. discriminate Hout.
    + rewrite (Hshape Hne Hns) in Hout. discriminate Hout.
    + destruct (Hloop Hne Hsame) as [Heq [(s & e & Hin & Hp & Hl) | (out' & Hl & Hlen & Hall)]];
        rewrite Heq, Hl in Hout; [discriminate Hout |].
      inversion Hout; subst out'. split; [exact Hlen | exact Hall].
  - intros msg Hout.
    destruct Hdec as [H | [[Hne Hns] | [Hne Hsame]]].
    + rewrite (Hempty H) in Hout. discriminate Hout.
    + rewrite (Hshape Hne Hns) in Hout. discriminate Hout.
    + destruct (Hloop Hne Hsame) as [Heq [(s & e & Hin & Hp & Hl) | (out' & Hl & _)]];
        rewrite Heq, Hl in Hout; discriminate Hout.
Qed.

Lemma C4_toForecastDays_witness :
  (exists out,
     toForecastDays (openMeteoDaily.mk ["2026-03-14"; "2026-03-15"]
                       [12; 9]%Q [20; 15]%Q [90; 225]%Q) = Go.Ok out)
  /\ (exists s e,
        In s ["2026-03-14"; "15/03/2026"]
        /\ Time.ParseDate s = Go.Err e
        /\ toForecastDays (openMeteoDaily.mk ["2026-03-14"; "15/03/2026"]
                             [12; 9]%Q [20; 15]%Q [90; 225]%Q)
           = Go.Err (Go.fmt_Errorf_w "parse date %q: %w" [s] e))
  /\ toForecastDays (openMeteoDaily.mk ["2026-03-14"] [] [20]%Q [90]%Q)
     = Go.Err (Go.errors_New "open-meteo arrays differ in length").
Proof.
  split; [| split].
  - refine (proj1 (proj2 (proj2 (proj2
      (C4_toForecastDays (openMeteoDaily.mk ["2026-03-14"; "2026-03-15"]
                            [12; 9]%Q [20; 15]%Q [90; 225]%Q))))) _ _ _).
    + discriminate.
    + simpl. auto.
    + repeat constructor; eexists; reflexivity.
  - refine (proj1 (proj2 (proj2
      (C4_toForecastDays (openMeteoDaily.mk ["2026-03-14"; "15/03/2026"]
                            [12; 9]%Q [20; 15]%Q [90; 225]%Q)))) _ _ _).
    + discriminate.
    + simpl. auto.
    + apply Exists_cons_tl. apply Exists_cons_hd. intros date H. discriminate H.
  - refine (proj1 (proj2
      (C4_toForecastDays (openMeteoDaily.mk ["2026-03-14"] [] [20]%Q [90]%Q))) _ _).
    + discriminate.
    + simpl. intros (H & _). discriminate H.
Defined.

End NormalizeWind.

(** ** The rain normalizer *)

Section NormalizeRain.

Import Weather.
Local Open Scope list_scope.

Lemma ParseDateHourMinute_not_panic (s : string) (msg : string) :
  Time.ParseDateHourMinute s <> Go.Panic msg.
Proof.
  unfold Time.ParseDateHourMinute.
  destruct (Time.parseYMD s) as [[[[y m] dd] rest] |]; [| discriminate].
  destruct (Time.parseHM rest) as [[[h mi] [| c r]] |]; try discriminate.
  destruct (Time.dayInRange y m dd); discriminate.
Qed.

(** C3, at payloads whose metric arrays are shorter than their time arrays:
    [toRainForecasts] returns no validation error. With one daily date and
    empty daily metrics it panics on [r.Daily.PrecipProb[0]]; with complete
    daily arrays and empty hourly metrics it panics on the first sample in
    a window, and returns a forecast without error when no sample is in a
    window. *)
Theorem C3_toRainForecasts_short_arrays :
  toRainForecasts
    (rainResponse.mk (rainDaily.mk ["2026-03-14"] [] [])
                     (rainHourly.mk [] [] []))
  = Go.Panic "index out of range"
  /\ toRainForecasts
       (rainResponse.mk (rainDaily.mk ["2026-03-14"] [(12 # 10)%Q] [])
                        (rainHourly.mk [] [] []))
     = Go.Panic "index out of range"
  /\ toRainForecasts
       (rainResponse.mk (rainDaily.mk ["2026-03-14"] [(12 # 10)%Q] [40])
                        (rainHourly.mk ["2026-03-14T07:00"] [] []))
     = Go.Panic "index out of range"
  /\ toRainForecasts
       (rainResponse.mk (rainDaily.mk ["2026-03-14"] [(12 # 10)%Q] [40])
                        (rainHourly.mk ["2026-03-14T12:00"] [] []))
     = Go.Ok [RainForecast.mk (Time.mk 2026 3 14 0 0 0 0) 40 (12 # 10)%Q [] [] []].
Proof. repeat split; reflexivity. Qed.









End NormalizeRain.

(** ** One orchestration cycle *)

Section Cycle.

Import AgentBase.
Context {L : TextLib}.

Ltac run_cycle :=
  cbv beta iota zeta delta
    [IO.run IO.bind IO.emit IO.ret sendTelegramMessage sentTexts app fst snd
     TelegramMessage.Text].

Lemma telegramConfigured_iff (c : Config.t) :
  telegramConfigured c = true
  <-> Config.TelegramToken c <> "" /\ Config.TelegramChatID c <> "".
Proof.
  unfold telegramConfigured.
  rewrite andb_true_iff, !negb_true_iff, !String.eqb_neq. tauto.
Qed.

(** C5: with a chat destination configured, a cycle whose LLM call succeeds
    sends two messages, the fenced table with the analysis first and the
    summary second; a cycle whose LLM call fails sends one message, the
    fenced table with the analysis, and no summary. Whatever the LLM and the
    chat service answer, the pass of the loop goes on to its sleep. *)
Theorem C5_cycle_messages (w : World) (a : Agent) (fetch : Forecaster)
    (generate : OllamaClient)
    (Htoken : Config.TelegramToken (cfg a) <> "")
    (Hchat : Config.TelegramChatID (cfg a) <> "") :
  let forecast := fst (fetch (Config.ForecastDays (cfg a))) in
  let report := Agent.buildForecastTable forecast in
  let analysis := Agent.buildEasterlyAnalysis forecast in
  let prompt :=
    Agent.buildPrompt (fallbackLocation (Config.LocationName (cfg a)))
      forecast report analysis in
  let tableMsg := (formatTelegramTable report ++ nl ++ analysis)%string in
  let sent := sentTexts (snd (IO.run (Agent.cycle w a fetch generate))) in
  (snd (generate prompt) = None -> sent = [tableMsg; fst (generate prompt)])
  /\ (snd (generate prompt) <> None -> sent = [tableMsg])
  /\ formatTelegramTable report = ("```" ++ nl ++ report ++ "```")%string
  /\ (forall runHour runMinute,
        DoneAtStart w = false -> DoneWhileSleeping w = false ->
        Config.Weather (cfg a) = Some fetch ->
        Config.Ollama (cfg a) = Some generate ->
        fst (IO.run (iteration Agent.cycle w a runHour runMinute)) = NextCycle).
Proof.
  intros forecast report analysis prompt tableMsg sent.
  assert (Hconf : telegramConfigured (cfg a) = true)
    by (apply telegramConfigured_iff; now split).
  subst sent tableMsg prompt analysis report forecast.
  split; [| split; [| split; [reflexivity |]]].
  - unfold Agent.cycle.
    destruct (fetch (Config.ForecastDays (cfg a))) as [forecast ferr].
    cbn [fst snd].
    destruct (generate _) as [summary gerr]. cbn [fst snd].
    intros ->. rewrite Hconf.
    destruct ferr; run_cycle;
      repeat match goal with
             | |- context [Post ?w ?u ?m] => destruct (Post w u m)
             end; reflexivity.
  - unfold Agent.cycle.
    destruct (fetch (Config.ForecastDays (cfg a))) as [forecast ferr].
    cbn [fst snd].
    destruct (generate _) as [summary gerr]. cbn [fst snd].
    intros Hg. destruct gerr as [e |]; [| congruence]. rewrite Hconf.
    destruct ferr; run_cycle;
      repeat match goal with
             | |- context [Post ?w ?u ?m] => destruct (Post w u m)
             end; reflexivity.
  - intros runHour runMinute Hd Hs Hw Ho.
    unfold iteration. rewrite Hd, Hw, Ho, Hs.
    unfold IO.run, IO.bind.
    destruct (Agent.cycle w a fetch generate []) as [u tr].
    reflexivity.
Qed.

(** The variant of src/unnamed/part_000 has no analysis line: its messages
    are the fenced table, then the summary, or the fenced table alone. *)
Lemma cycle_part000_messages (w : World) (a : Agent) (fetch : Forecaster)
    (generate : OllamaClient) :
  Config.TelegramToken (cfg a) <> "" ->
  Config.TelegramChatID (cfg a) <> "" ->
  let forecast := fst (fetch (Config.ForecastDays (cfg a))) in
  let report := AgentPart000.buildForecastTable forecast in
  let prompt :=
    AgentPart000.buildPrompt (fallbackLocation (Config.LocationName (cfg a)))
      forecast report in
  let sent := sentTexts (snd (IO.run (AgentPart000.cycle w a fetch generate))) in
  (snd (generate prompt) = None ->
   sent = [formatTelegramTable report; fst (generate prompt)])
  /\ (snd (generate prompt) <> None -> sent = [formatTelegramTable report]).
Proof.
  intros Htoken Hchat forecast report prompt sent.
  assert (Hconf : telegramConfigured (cfg a) = true)
    by (apply telegramConfigured_iff; now split).
  subst sent prompt report forecast. unfold AgentPart000.cycle.
  destruct (fetch (Config.ForecastDays (cfg a))) as [forecast ferr].
  cbn [fst snd].
  destruct (generate _) as [summary gerr]. cbn [fst snd].
  rewrite Hconf.
  split; intros Hg; destruct gerr as [e |]; try congruence;
    destruct ferr; run_cycle;
      repeat match goal with
             | |- context [Post ?w ?u ?m] => destruct (Post w u m)
             end; reflexivity.
Qed.

End Cycle.

Lemma C5_cycle_messages_witness :
  let L := Build_TextLib (fun _ _ => "Sat 14 Mar") (fun _ _ => "  12")
             (fun s => s) in
  let days := [Weather.ForecastDay.mk (Time.mk 2026 3 14 0 0 0 0) 12 20 90] in
  let fetch : AgentBase.Forecaster := fun _ => (days, None) in
  let answers : AgentBase.OllamaClient := fun _ => ("One easterly day.", None) in
  let fails : AgentBase.OllamaClient :=
    fun _ => ("", Some (Go.errors_New "connection refused")) in
  let a := AgentBase.New
             (AgentBase.Config.mk "Heathrow" 0 (Some fetch) (Some answers)
                "token" "42") in
  let w := AgentBase.mkWorld false (fun _ _ => None)
             (Time.mk 2026 3 14 10 0 5 0) false in
  let tableMsg :=
    (AgentBase.formatTelegramTable (Agent.buildForecastTable days) ++ nl
     ++ Agent.buildEasterlyAnalysis days)%string in
  AgentBase.sentTexts (snd (IO.run (Agent.cycle w a fetch answers)))
  = [tableMsg; "One easterly day."]
  /\ AgentBase.sentTexts (snd (IO.run (Agent.cycle w a fetch fails)))
     = [tableMsg].
Proof.
  intros L days fetch answers fails a w tableMsg.
  split.
  - refine (proj1 (@C5_cycle_messages L w a fetch answers _ _) _).
    + discriminate.
    + discriminate.
    + reflexivity.
  - refine (proj1 (proj2 (@C5_cycle_messages L w a fetch fails _ _)) _).
    + discriminate.
    + discriminate.
    + discriminate.
Defined.

(** ** More on the compass classifiers *)

Section CompassTurns.

Local Open Scope Q_scope.





(** The two tables never contradict each other on East and West: an angle
    that the four-point table calls E is easterly for the two-point table,
    one that it calls W is W there too, for every input. *)
Theorem compass_tables_agree (deg : Q) :
  (AgentPart000.degToCompass deg = "E" ->
   Agent.degToCompass deg = "E" /\ Agent.isEasterly deg = true)
  /\ (AgentPart000.degToCompass deg = "W" ->
      Agent.degToCompass deg = "W" /\ Agent.isEasterly deg = false)
  /\ (Agent.isEasterly deg = true -> AgentPart000.degToCompass deg <> "W")
  /\ (AgentPart000.degToCompass deg = "E" \/ AgentPart000.degToCompass deg = "W"
      \/ AgentPart000.degToCompass deg = "S" \/ AgentPart000.degToCompass deg = "N").
Proof.
  rewrite degToCompass4_whole, degToCompass2_isEasterly, isEasterly_whole.
  cbv zeta. set (n := wholeDeg deg).
  destruct (Z.leb_spec 30 n), (Z.ltb_spec n 150), (Z.leb_spec 210 n),
    (Z.ltb_spec n 330), (Z.leb_spec 150 n), (Z.ltb_spec n 210),
    (Z.ltb_spec 0 n), (Z.ltb_spec n 180); simpl;
    repeat split; intros; try discriminate; try lia; auto.
Qed.

Lemma compass_tables_agree_witness :
  Agent.degToCompass (905 # 10) = "E" /\ Agent.isEasterly (905 # 10) = true.
Proof.
  apply (compass_tables_agree (905 # 10)). reflexivity.
Defined.

End CompassTurns.

(** ** More on the aggregate analysis *)

Section AnalysisCounts.

Local Open Scope list_scope.

Local Abbreviation easterlyDay :=
  (fun d : Weather.ForecastDay.t =>
     Agent.isEasterly (Weather.ForecastDay.WindDirMean d)).

(** The number of easterly days is between 0 and the number of days, so the
    number of West days that [buildEasterlyAnalysis] prints is never
    negative; and the count of a forecast in two parts is the sum of the
    counts of the parts. *)
Theorem countEasterlyDays_bounds (days more : list Weather.ForecastDay.t) :
  0 <= Agent.countEasterlyDays days <= Z.of_nat (length days)
  /\ 0 <= Z.of_nat (length days) - Agent.countEasterlyDays days
  /\ Agent.countEasterlyDays (days ++ more)
     = Agent.countEasterlyDays days + Agent.countEasterlyDays more.
Proof.
  rewrite !countEasterlyDays_filter.
  pose proof (filter_length_le easterlyDay days) as Hle.
  repeat split; try lia.
  rewrite filter_app, length_app. lia.
Qed.

(** The label of the analysis is Mixed exactly when half of the days are
    easterly, East exactly when more than half are, West exactly when fewer
    are; a forecast with an odd number of days is never Mixed. *)
Theorem dominant_majority (days : list Weather.ForecastDay.t) :
  let eastCount := Agent.countEasterlyDays days in
  let total := Z.of_nat (length days) in
  let dominant := Agent.dominantOf eastCount (total - eastCount) in
  Agent.buildEasterlyAnalysis days
  = Agent.analysisLine dominant eastCount (total - eastCount)
  /\ (dominant = "Mixed" <-> 2 * eastCount = total)
  /\ (dominant = "E ✈️" <-> 2 * eastCount > total)
  /\ (dominant = "W" <-> 2 * eastCount < total)
  /\ (total mod 2 = 1 -> dominant <> "Mixed").
Proof.
  intros eastCount total dominant.
  split; [reflexivity |].
  assert (H3 : (dominant = "Mixed" <-> 2 * eastCount = total)
               /\ (dominant = "E ✈️" <-> 2 * eastCount > total)
               /\ (dominant = "W" <-> 2 * eastCount < total)).
  { unfold dominant, Agent.dominantOf.
    destruct (Z.gtb_spec eastCount (total - eastCount));
      [| destruct (Z.gtb_spec (total - eastCount) eastCount)];
      repeat split; intros H'; try discriminate H'; try reflexivity; lia. }
  destruct H3 as (Hm & He & Hw).
  repeat split; try apply Hm; try apply He; try apply Hw.
  intros Hodd Hmixed. apply Hm in Hmixed.
  rewrite <- Hmixed in Hodd. rewrite Z.mul_comm, Z.mod_mul in Hodd by lia.
  discriminate Hodd.
Qed.

Lemma dominant_majority_witness :
  let day dir := Weather.ForecastDay.mk (Time.mk 2026 3 14 0 0 0 0) 12 20 dir in
  let days := [day 90%Q; day 100%Q; day 270%Q] in
  Agent.dominantOf (Agent.countEasterlyDays days)
    (3 - Agent.countEasterlyDays days) <> "Mixed".
Proof.
  intros day days.
  apply (dominant_majority days). reflexivity.
Defined.

End AnalysisCounts.

(** ** The report tables *)

Section Tables.

Context {L : TextLib}.

Lemma string_app_assoc (a b c : string) :
  ((a ++ b) ++ c = a ++ (b ++ c))%string.
Proof. induction a as [| ch a IH]; simpl; [reflexivity | now rewrite IH]. Qed.

Lemma string_app_nil_r (a : string) : (a ++ "" = a)%string.
Proof. induction a as [| ch a IH]; simpl; [reflexivity | now rewrite IH]. Qed.

(** A row of the easterly table of agent.go: the direction column and the
    marker column come from the same test. *)
Local Abbreviation easterlyRow :=
  (fun day : Weather.ForecastDay.t =>
     (time_Format "Mon 02 Jan" (Weather.ForecastDay.Date day)
      ++ " | " ++ fmt_float "%4.0f" (Weather.ForecastDay.WindSpeedMax day)
      ++ " | "
      ++ (if Agent.isEasterly (Weather.ForecastDay.WindDirMean day)
          then "E   | ✈️" else "W   |   ")
      ++ nl)%string).

(** A row of the wind table of part_000. *)
Local Abbreviation windRow :=
  (fun day : Weather.ForecastDay.t =>
     (time_Format "2006-01-02" (Weather.ForecastDay.Date day)
      ++ " | " ++ fmt_float "%8.1f" (Weather.ForecastDay.WindSpeedMax day)
      ++ " | " ++ fmt_float "%7.1f" (Weather.ForecastDay.WindGustMax day)
      ++ " | " ++ AgentPart000.degToCompass (Weather.ForecastDay.WindDirMean day)
      ++ nl)%string).

(** The rows of a list of days, one after the other. *)
Local Abbreviation rowsOf row days :=
  (fold_right (fun (day : Weather.ForecastDay.t) (rest : string) =>
                 (row day ++ rest)%string) "" days).

Lemma fold_left_rows (row : Weather.ForecastDay.t -> string)
    (days : list Weather.ForecastDay.t) (acc : string) :
  fold_left (fun b day => (b ++ row day)%string) days acc
  = (acc ++ rowsOf row days)%string.
Proof.
  revert acc. induction days as [| day days IH]; intros acc; simpl.
  - now rewrite string_app_nil_r.
  - now rewrite IH, string_app_assoc.
Qed.

Lemma fold_left_ext_rows (f g : string -> Weather.ForecastDay.t -> string)
    (days : list Weather.ForecastDay.t) (acc : string) :
  (forall b day, f b day = g b day) ->
  fold_left f days acc = fold_left g days acc.
Proof.
  intros H. revert acc. induction days as [| day days IH]; intros acc; simpl.
  - reflexivity.
  - now rewrite H, IH.
Qed.

Lemma easterly_table_rows (days : list Weather.ForecastDay.t) (acc : string) :
  fold_left
    (fun b day =>
       let eastMarker :=
         if Agent.isEasterly (Weather.ForecastDay.WindDirMean day)
         then " ✈️" else "   " in
       (b ++ (time_Format "Mon 02 Jan" (Weather.ForecastDay.Date day)
              ++ " | " ++ fmt_float "%4.0f" (Weather.ForecastDay.WindSpeedMax day)
              ++ " | " ++ padRight 3 (Agent.degToCompass (Weather.ForecastDay.WindDirMean day))
              ++ " |" ++ eastMarker ++ nl))%string)
    days acc
  = (acc ++ rowsOf easterlyRow days)%string.
Proof.
  rewrite <- fold_left_rows. apply fold_left_ext_rows.
  intros b day. cbv zeta. rewrite degToCompass2_isEasterly.
  destruct (Agent.isEasterly (Weather.ForecastDay.WindDirMean day)); reflexivity.
Qed.

(** The easterly table is the header, the separator and one row per day, in
    the order of the days; a row shows E together with the plane marker or W
    together with blanks, never a mix; and the table of a longer forecast
    extends the table of its beginning. *)
Theorem easterly_table_rows_in_order (days more : list Weather.ForecastDay.t) :
  Agent.buildForecastTable days
  = ("Date       | Wind | Dir | East" ++ nl
     ++ "-----------+------+-----+-----" ++ nl
     ++ rowsOf easterlyRow days)%string
  /\ Agent.buildForecastTable (days ++ more)%list
     = (Agent.buildForecastTable days ++ rowsOf easterlyRow more)%string.
Proof.
  unfold Agent.buildForecastTable. split.
  - rewrite easterly_table_rows. now rewrite !string_app_assoc.
  - rewrite fold_left_app. now rewrite (easterly_table_rows more).
Qed.

(** The same for the wind table of part_000. *)
Theorem wind_table_rows_in_order (days more : list Weather.ForecastDay.t) :
  AgentPart000.buildForecastTable days
  = ("Date        | Wind Max | Gust Max | Dir" ++ nl
     ++ "------------+----------+---------+------" ++ nl
     ++ rowsOf windRow days)%string
  /\ AgentPart000.buildForecastTable (days ++ more)%list
     = (AgentPart000.buildForecastTable days ++ rowsOf windRow more)%string.
Proof.
  unfold AgentPart000.buildForecastTable. split.
  - rewrite (fold_left_rows windRow). now rewrite !string_app_assoc.
  - rewrite fold_left_app. now rewrite (fold_left_rows windRow more).
Qed.

(** The number of line ends in a text. *)
Local Abbreviation lineEnds s :=
  (count_occ ascii_dec (list_ascii_of_string s) (ascii_of_nat 10)).

Lemma lineEnds_app (a b : string) :
  lineEnds (a ++ b)%string = (lineEnds a + lineEnds b)%nat.
Proof.
  induction a as [| ch a IH]; [reflexivity |].
  cbn [append list_ascii_of_string count_occ].
  destruct (ascii_dec ch (ascii_of_nat 10)); rewrite IH; reflexivity.
Qed.

Lemma lineEnds_rows (row : Weather.ForecastDay.t -> string)
    (days : list Weather.ForecastDay.t) :
  (forall day, lineEnds (row day) = 1%nat) ->
  lineEnds (rowsOf row days) = length days.
Proof.
  intros H. induction days as [| day days IH]; [reflexivity |].
  cbn [fold_right length]. now rewrite lineEnds_app, H, IH.
Qed.

(** When the library formats a date and a number without a line end, a
    table of N days has N + 2 lines: the header, the separator and one line
    per day. This holds for the easterly table and for the wind table. *)
Theorem table_line_count (days : list Weather.ForecastDay.t)
    (Hdate : forall layout t, lineEnds (time_Format layout t) = 0%nat)
    (Hfloat : forall verb x, lineEnds (fmt_float verb x) = 0%nat) :
  lineEnds (Agent.buildForecastTable days) = (length days + 2)%nat
  /\ lineEnds (AgentPart000.buildForecastTable days) = (length days + 2)%nat.
Proof.
  split.
  - unfold Agent.buildForecastTable. rewrite easterly_table_rows.
    rewrite !lineEnds_app, lineEnds_rows; [cbn; lia |].
    intros day. rewrite !lineEnds_app, Hdate, Hfloat.
    destruct (Agent.isEasterly (Weather.ForecastDay.WindDirMean day)); reflexivity.
  - unfold AgentPart000.buildForecastTable. rewrite (fold_left_rows windRow).
    rewrite !lineEnds_app, lineEnds_rows; [cbn; lia |].
    intros day. rewrite !lineEnds_app, !Hdate, !Hfloat.
    rewrite degToCompass4_whole. cbv zeta.
    repeat match goal with
           | |- context [if ?b then _ else _] => destruct b
           end; reflexivity.
Qed.

End Tables.

Lemma table_line_count_witness :
  let L := Build_TextLib (fun _ _ => "Sat 14 Mar") (fun _ _ => "  12")
             (fun s => s) in
  let days := [Weather.ForecastDay.mk (Time.mk 2026 3 14 0 0 0 0) 12 20 90;
               Weather.ForecastDay.mk (Time.mk 2026 3 15 0 0 0 0) 9 15 270] in
  count_occ ascii_dec (list_ascii_of_string (Agent.buildForecastTable days))
    (ascii_of_nat 10) = 4%nat
  /\ count_occ ascii_dec
       (list_ascii_of_string (AgentPart000.buildForecastTable days))
       (ascii_of_nat 10) = 4%nat.
Proof.
  intros L days.
  apply (@table_line_count L days); intros; reflexivity.
Defined.

(** ** More on one pass of the loop *)

Section CycleEdges.

Import AgentBase.
Context {L : TextLib}.
Local Open Scope list_scope.

Ltac run_trace_in H :=
  cbv beta iota zeta delta
    [IO.run IO.bind IO.emit IO.ret sendTelegramMessage sentTexts app fst snd
     TelegramMessage.Text TelegramMessage.ChatID TelegramMessage.ParseMode]
    in H.

Ltac answer_posts :=
  repeat match goal with
         | |- context [Post ?w ?u ?m] => destruct (Post w u m)
         | H : context [Post ?w ?u ?m] |- _ => destruct (Post w u m)
         end.

Lemma telegramConfigured_false (c : Config.t) :
  Config.TelegramToken c = "" \/ Config.TelegramChatID c = "" ->
  telegramConfigured c = false.
Proof.
  intros H. apply not_true_is_false. intros Ht.
  apply telegramConfigured_iff in Ht. destruct Ht as [H1 H2].
  destruct H; contradiction.
Qed.

(** Without a chat destination (no token or no chat id) a cycle sends
    nothing, whether the LLM call succeeds or fails, in both variants. *)
Theorem cycle_without_destination (w : World) (a : Agent) (fetch : Forecaster)
    (generate : OllamaClient)
    (H : Config.TelegramToken (cfg a) = "" \/ Config.TelegramChatID (cfg a) = "") :
  sentTexts (snd (IO.run (Agent.cycle w a fetch generate))) = []
  /\ sentTexts (snd (IO.run (AgentPart000.cycle w a fetch generate))) = [].
Proof.
  pose proof (telegramConfigured_false (cfg a) H) as Hconf.
  unfold Agent.cycle, AgentPart000.cycle.
  destruct (fetch (Config.ForecastDays (cfg a))) as [forecast ferr].
  split.
  - destruct (generate _) as [summary gerr]. rewrite Hconf.
    destruct ferr, gerr; reflexivity.
  - destruct (generate _) as [summary gerr]. rewrite Hconf.
    destruct ferr, gerr; reflexivity.
Qed.

(** Every request that a cycle makes to the chat service goes to the URL of
    the configured token, for the configured chat, in Markdown mode, in both
    variants. *)
Theorem cycle_sends_to_configured_chat (w : World) (a : Agent)
    (fetch : Forecaster) (generate : OllamaClient) (url : string)
    (body : TelegramMessage.t)
    (H : In (TelegramSend url body) (snd (IO.run (Agent.cycle w a fetch generate)))
         \/ In (TelegramSend url body)
              (snd (IO.run (AgentPart000.cycle w a fetch generate)))) :
  url = ("https://api.telegram.org/bot" ++ Config.TelegramToken (cfg a)
         ++ "/sendMessage")%string
  /\ TelegramMessage.ChatID body = Config.TelegramChatID (cfg a)
  /\ TelegramMessage.ParseMode body = "Markdown".
Proof.
  unfold Agent.cycle, AgentPart000.cycle in H.
  destruct (fetch (Config.ForecastDays (cfg a))) as [forecast ferr].
  destruct H as [H | H];
    destruct (generate _) as [summary gerr];
    destruct (telegramConfigured (cfg a));
    destruct ferr, gerr; run_trace_in H; answer_posts; cbn [In] in H;
    repeat match goal with
           | H : _ \/ _ |- _ => destruct H as [H | H]
           end;
    try discriminate H; try contradiction;
    inversion H; subst; repeat split.
Qed.

(** A pass of the loop that finds the context done, or a client missing,
    returns its error before anything is fetched, printed or sent; a pass
    with both clients runs the cycle, prints the sleep line once, and returns
    only when the context is done during the sleep. *)
Theorem iteration_outcomes
    (cycle : World -> Agent -> Forecaster -> OllamaClient -> IO.t event unit)
    (w : World) (a : Agent) (runHour runMinute : Z) :
  (DoneAtStart w = true ->
   IO.run (iteration cycle w a runHour runMinute)
   = (Returned Go.context_Err, []))
  /\ (DoneAtStart w = false -> Config.Weather (cfg a) = None ->
      IO.run (iteration cycle w a runHour runMinute)
      = (Returned (Go.fmt_Errorf "weather client is missing" []), []))
  /\ (forall fetch,
        DoneAtStart w = false -> Config.Weather (cfg a) = Some fetch ->
        Config.Ollama (cfg a) = None ->
        IO.run (iteration cycle w a runHour runMinute)
        = (Returned (Go.fmt_Errorf "ollama client is missing" []), []))
  /\ (forall fetch generate,
        DoneAtStart w = false -> Config.Weather (cfg a) = Some fetch ->
        Config.Ollama (cfg a) = Some generate ->
        IO.run (iteration cycle w a runHour runMinute)
        = (if DoneWhileSleeping w then Returned Go.context_Err else NextCycle,
           snd (IO.run (cycle w a fetch generate))
           ++ [Printf "Sleeping for %v until next run at %02d:%02d UTC...\n"
                 [VUntil (nextRun (Now w) runHour runMinute);
                  VInt runHour; VInt runMinute]])).
Proof.
  unfold iteration, IO.run.
  split; [| split; [| split]].
  - intros ->. reflexivity.
  - intros -> ->. reflexivity.
  - intros fetch -> -> ->. reflexivity.
  - intros fetch generate -> -> ->. unfold IO.bind, IO.emit, IO.ret.
    destruct (cycle w a fetch generate []) as [u tr]. cbn [snd].
    destruct (DoneWhileSleeping w); reflexivity.
Qed.

End CycleEdges.

Lemma cycle_without_destination_witness :
  let L := Build_TextLib (fun _ _ => "Sat 14 Mar") (fun _ _ => "  12")
             (fun s => s) in
  let fetch : AgentBase.Forecaster :=
    fun _ => ([], Some (Go.errors_New "offline")) in
  let generate : AgentBase.OllamaClient := fun _ => ("Calm.", None) in
  let a := AgentBase.New
             (AgentBase.Config.mk "Heathrow" 15 (Some fetch) (Some generate)
                "token" "") in
  let w := AgentBase.mkWorld false (fun _ _ => None)
             (Time.mk 2026 3 14 10 0 5 0) false in
  AgentBase.sentTexts (snd (IO.run (Agent.cycle w a fetch generate))) = []
  /\ AgentBase.sentTexts (snd (IO.run (AgentPart000.cycle w a fetch generate))) = [].
Proof.
  intros L fetch generate a w.
  apply (@cycle_without_destination L w a fetch generate). right. reflexivity.
Defined.

Lemma cycle_sends_to_configured_chat_witness :
  let L := Build_TextLib (fun _ _ => "Sat 14 Mar") (fun _ _ => "  12")
             (fun s => s) in
  let fetch : AgentBase.Forecaster := fun _ => ([], None) in
  let generate : AgentBase.OllamaClient :=
    fun _ => ("", Some (Go.errors_New "connection refused")) in
  let a := AgentBase.New
             (AgentBase.Config.mk "Heathrow" 15 (Some fetch) (Some generate)
                "token" "42") in
  let w := AgentBase.mkWorld false (fun _ _ => None)
             (Time.mk 2026 3 14 10 0 5 0) false in
  let text := (AgentBase.formatTelegramTable (Agent.buildForecastTable [])
               ++ nl ++ Agent.buildEasterlyAnalysis [])%string in
  "https://api.telegram.org/bottoken/sendMessage"
  = ("https://api.telegram.org/bot" ++ "token" ++ "/sendMessage")%string
  /\ AgentBase.TelegramMessage.ChatID
       (AgentBase.TelegramMessage.mk "42" text "Markdown") = "42"
  /\ AgentBase.TelegramMessage.ParseMode
       (AgentBase.TelegramMessage.mk "42" text "Markdown") = "Markdown".
Proof.
  intros L fetch generate a w text.
  apply (@cycle_sends_to_configured_chat L w a fetch generate
           "https://api.telegram.org/bottoken/sendMessage"
           (AgentBase.TelegramMessage.mk "42" text "Markdown")).
  left. vm_compute.
  repeat (first [left; reflexivity | right]).
Defined.

Lemma iteration_outcomes_witness :
  let L := Build_TextLib (fun _ _ => "Sat 14 Mar") (fun _ _ => "  12")
             (fun s => s) in
  let generate : AgentBase.OllamaClient := fun _ => ("Calm.", None) in
  let a := AgentBase.New
             (AgentBase.Config.mk "Heathrow" 15 None (Some generate) "token" "42") in
  let w := AgentBase.mkWorld false (fun _ _ => None)
             (Time.mk 2026 3 14 10 0 5 0) false in
  IO.run (AgentBase.iteration Agent.cycle w a 10 0)
  = (AgentBase.Returned (Go.fmt_Errorf "weather client is missing" []), []).
Proof.
  intros L generate a w.
  apply (iteration_outcomes (@Agent.cycle L) w a 10 0); reflexivity.
Defined.

(** ** More on the schedule *)

Section ScheduleBounds.

Import AgentBase.

Lemma lexLt_same_head (x : Z) (a b : list Z) :
  Time.lexLt (x :: a) (x :: b) = Time.lexLt a b.
Proof. cbn [Time.lexLt]. now rewrite Z.ltb_irrefl, Z.eqb_refl. Qed.

Lemma lexLt_asym (a b : list Z) :
  Time.lexLt a b = true -> Time.lexLt b a = false.
Proof.
  revert b. induction a as [| x a IH]; intros [| y b]; try reflexivity;
    try discriminate.
  cbn [Time.lexLt]. intros H.
  destruct (Z.ltb_spec x y), (Z.ltb_spec y x), (Z.eqb_spec x y), (Z.eqb_spec y x);
    simpl in *; try lia; try reflexivity; try discriminate.
  now apply IH.
Qed.

(** The next trigger is at [runHour:runMinute:00] sharp, on the day of the
    current time or on the next one, and never later than 24 hours after the
    current time. *)
Theorem nextRun_within_a_day (now : Time.t) (runHour runMinute : Z) :
  let next := nextRun now runHour runMinute in
  Time.Before (Time.Add24Hours now) next = false
  /\ Time.Hour next = runHour /\ Time.Minute next = runMinute
  /\ Time.Second next = 0 /\ Time.Nanosecond next = 0
  /\ ((Time.Year next, Time.Month next, Time.Day next)
      = (Time.Year now, Time.Month now, Time.Day now)
      \/ (Time.Year next, Time.Month next, Time.Day next)
         = (Time.Year (Time.Add24Hours now), Time.Month (Time.Add24Hours now),
            Time.Day (Time.Add24Hours now))).
Proof.
  intros next. subst next. unfold nextRun.
  set (today := Time.Date (Time.Year now) (Time.Month now) (Time.Day now)
                  runHour runMinute 0 0).
  destruct (Time.Before now today) eqn:E; cbn [negb].
  - split; [| repeat split; now left].
    apply lexLt_asym. apply (Before_Add24Hours today now); reflexivity.
  - assert (Hclock : Time.lexLt
                       [Time.Hour now; Time.Minute now; Time.Second now;
                        Time.Nanosecond now]
                       [runHour; runMinute; 0; 0] = false).
    { unfold Time.Before, Time.fields, today, Time.Date in E.
      cbn [Time.Year Time.Month Time.Day Time.Hour Time.Minute Time.Second
           Time.Nanosecond] in E.
      now rewrite !lexLt_same_head in E. }
    unfold Time.Before, Time.fields, Time.Add24Hours, today, Time.Date.
    cbn [Time.Year Time.Month Time.Day Time.Hour Time.Minute Time.Second
         Time.Nanosecond].
    destruct (Time.Day now <? Time.daysIn (Time.Month now) (Time.Year now));
      [| destruct (Time.Month now <? 12)];
      cbn [Time.Year Time.Month Time.Day Time.Hour Time.Minute Time.Second
           Time.Nanosecond];
      rewrite !lexLt_same_head, Hclock; repeat split; now right.
Qed.

(** The run time that [Run] reads from the environment is always a time of
    day: it is 10:00 when the variables are empty, a variable that holds a
    number in range replaces its part, and any other value leaves the
    default. *)
Theorem runTime_valid (getenv : string -> string) :
  let hour := fst (runTime getenv) in
  let minute := snd (runTime getenv) in
  0 <= hour < 24 /\ 0 <= minute < 60
  /\ (getenv "WIND_CHECK_HOUR" = "" -> hour = 10)
  /\ (getenv "WIND_CHECK_MINUTE" = "" -> minute = 0)
  /\ (forall v, Strconv.Atoi (getenv "WIND_CHECK_HOUR") = Some v ->
                hour = if (0 <=? v) && (v <? 24) then v else 10)
  /\ (forall v, Strconv.Atoi (getenv "WIND_CHECK_MINUTE") = Some v ->
                minute = if (0 <=? v) && (v <? 60) then v else 0)
  /\ (Strconv.Atoi (getenv "WIND_CHECK_HOUR") = None -> hour = 10)
  /\ (Strconv.Atoi (getenv "WIND_CHECK_MINUTE") = None -> minute = 0).
Proof.
  intros hour minute.
  destruct (runTime_in_range getenv) as [Hh Hm].
  split; [exact Hh |]. split; [exact Hm |].
  subst hour minute. unfold runTime. cbn [fst snd].
  split; [| split; [| split; [| split; [| split]]]].
  - intros ->. reflexivity.
  - intros ->. reflexivity.
  - intros v Hv. rewrite Hv.
    destruct (String.eqb_spec (getenv "WIND_CHECK_HOUR") "") as [He | He];
      [| reflexivity].
    rewrite He in Hv. discriminate Hv.
  - intros v Hv. rewrite Hv.
    destruct (String.eqb_spec (getenv "WIND_CHECK_MINUTE") "") as [He | He];
      [| reflexivity].
    rewrite He in Hv. discriminate Hv.
  - intros ->. now destruct (negb _).
  - intros ->. now destruct (negb _).
Qed.

Lemma runTime_valid_witness :
  let getenv := fun name : string =>
                  if String.eqb name "WIND_CHECK_HOUR" then "7"
                  else if String.eqb name "WIND_CHECK_MINUTE" then "75" else "" in
  let unset := fun _ : string => "" in
  let words := fun _ : string => "ten" in
  (fst (runTime getenv) = 7 /\ snd (runTime getenv) = 0)
  /\ (fst (runTime unset) = 10 /\ snd (runTime unset) = 0)
  /\ (fst (runTime words) = 10 /\ snd (runTime words) = 0).
Proof.
  intros getenv unset words.
  destruct (runTime_valid getenv) as (_ & _ & _ & _ & Hh & Hm & _).
  destruct (runTime_valid unset) as (_ & _ & Uh & Um & _).
  destruct (runTime_valid words) as (_ & _ & _ & _ & _ & _ & Wh & Wm).
  split; [split | split; split].
  - apply (Hh 7). reflexivity.
  - apply (Hm 75). reflexivity.
  - apply Uh. reflexivity.
  - apply Um. reflexivity.
  - apply Wh. reflexivity.
  - apply Wm. reflexivity.
Defined.

End ScheduleBounds.

(** ** More on the wind normalizer *)

Section ForecastDates.

Import Weather.
Local Open Scope list_scope.

Lemma digit_range (c : ascii) : Time.isDigit c = true -> 0 <= Time.digit c <= 9.
Proof.
  unfold Time.isDigit, Time.digit. rewrite andb_true_iff, !N.leb_le. lia.
Qed.

Lemma getnum_shape (s : string) (fixed : bool) (n : Z) (rest : string) :
  Time.getnum s fixed = Some (n, rest) ->
  0 <= n <= 99
  /\ (fixed = true -> String.length s = (2 + String.length rest)%nat).
Proof.
  unfold Time.getnum.
  destruct s as [| c0 [| c1 s']]; try discriminate.
  - destruct (Time.isDigit c0) eqn:E0; [| discriminate].
    destruct fixed; [discriminate |]. intros H; inversion H; subst.
    pose proof (digit_range c0 E0). split; [lia | discriminate].
  - destruct (Time.isDigit c0) eqn:E0; [| discriminate].
    pose proof (digit_range c0 E0).
    destruct (Time.isDigit c1) eqn:E1.
    + intros H'; inversion H'; subst. pose proof (digit_range c1 E1).
      split; [lia | reflexivity].
    + destruct fixed; [discriminate |]. intros H'; inversion H'; subst.
      split; [lia | discriminate].
Qed.

Lemma skip_shape (c : ascii) (s rest : string) :
  Time.skip c s = Some rest -> String.length s = S (String.length rest).
Proof.
  destruct s as [| c' s']; [discriminate |]. simpl.
  destruct (Ascii.eqb c c'); [| discriminate].
  intros H; inversion H; subst. reflexivity.
Qed.

Lemma parseYMD_shape (s : string) (y m d : Z) (rest : string) :
  Time.parseYMD s = Some (y, m, d, rest) ->
  0 <= y <= 9999 /\ 1 <= m <= 12
  /\ String.length s = (10 + String.length rest)%nat.
Proof.
  unfold Time.parseYMD.
  destruct (Time.getyear s) as [[year s1] |] eqn:Ey; [| discriminate].
  destruct (Time.skip "-" s1) as [s2 |] eqn:E1; [| discriminate].
  destruct (Time.getnum s2 true) as [[month s3] |] eqn:Em; [| discriminate].
  destruct ((1 <=? month) && (month <=? 12)) eqn:Er; [| discriminate].
  destruct (Time.skip "-" s3) as [s4 |] eqn:E2; [| discriminate].
  destruct (Time.getnum s4 true) as [[day s5] |] eqn:Ed; [| discriminate].
  intros H; inversion H; subst.
  apply andb_true_iff in Er. destruct Er as [Er1 Er2].
  apply Z.leb_le in Er1. apply Z.leb_le in Er2.
  apply skip_shape in E1. apply skip_shape in E2.
  destruct (getnum_shape _ _ _ _ Em) as [_ Lm].
  destruct (getnum_shape _ _ _ _ Ed) as [_ Ld].
  specialize (Lm eq_refl). specialize (Ld eq_refl).
  unfold Time.getyear in Ey.
  destruct s as [| a [| b [| c [| e s']]]]; try discriminate.
  destruct (Time.isDigit a) eqn:Da; [| discriminate].
  destruct (Time.isDigit b) eqn:Db; [| discriminate].
  destruct (Time.isDigit c) eqn:Dc; [| discriminate].
  destruct (Time.isDigit e) eqn:De; [| discriminate].
  simpl in Ey. inversion Ey; subst.
  pose proof (digit_range a Da). pose proof (digit_range b Db).
  pose proof (digit_range c Dc). pose proof (digit_range e De).
  repeat split; try lia. simpl. lia.
Qed.

(** A date that [time.Parse] accepts for the layout 2006-01-02 has ten
    characters and denotes a day of the calendar at midnight. *)
Lemma ParseDate_shape (s : string) (t : Time.t) :
  Time.ParseDate s = Go.Ok t ->
  String.length s = 10%nat
  /\ 0 <= Time.Year t <= 9999 /\ 1 <= Time.Month t <= 12
  /\ 1 <= Time.Day t <= Time.daysIn (Time.Month t) (Time.Year t)
  /\ Time.Hour t = 0 /\ Time.Minute t = 0
  /\ Time.Second t = 0 /\ Time.Nanosecond t = 0.
Proof.
  unfold Time.ParseDate.
  destruct (Time.parseYMD s) as [[[[y m] d] [| c rest]] |] eqn:E; try discriminate.
  destruct (Time.dayInRange y m d) eqn:Er; [| discriminate].
  intros H; inversion H; subst. cbn.
  destruct (parseYMD_shape _ _ _ _ _ E) as (Hy & Hm & Hl).
  unfold Time.dayInRange in Er. apply andb_true_iff in Er.
  destruct Er as [Er1 Er2]. apply Z.leb_le in Er1. apply Z.leb_le in Er2.
  simpl in Hl. repeat split; try lia.
Qed.

(** What a result without error tells about the payload. *)
Lemma toForecastDays_Ok_inv (d : openMeteoDaily.t) (out : list ForecastDay.t) :
  toForecastDays d = Go.Ok out ->
  openMeteoDaily.Time d <> []
  /\ length (openMeteoDaily.Time d) = length (openMeteoDaily.WindSpeedMax d)
  /\ length (openMeteoDaily.Time d) = length (openMeteoDaily.WindGustMax d)
  /\ length (openMeteoDaily.Time d) = length (openMeteoDaily.WindDirMean d)
  /\ forecastLoop d 0 (openMeteoDaily.Time d) [] = Go.Ok out.
Proof.
  unfold toForecastDays.
  destruct (Nat.eqb_spec (length (openMeteoDaily.Time d)) 0) as [H0 | H0];
    [discriminate |].
  destruct (Nat.eqb_spec (length (openMeteoDaily.Time d))
              (length (openMeteoDaily.WindSpeedMax d))); [| discriminate].
  destruct (Nat.eqb_spec (length (openMeteoDaily.Time d))
              (length (openMeteoDaily.WindGustMax d))); [| discriminate].
  destruct (Nat.eqb_spec (length (openMeteoDaily.Time d))
              (length (openMeteoDaily.WindDirMean d))); [| discriminate].
  simpl. intros H. repeat split; try assumption.
  intros E. rewrite E in H0. now apply H0.
Qed.

(** A forecast that [toForecastDays] returns is never empty, and each of
    its records carries a day of the calendar (month 1..12, a day that the
    month has, year 0..9999) with the clock at 00:00:00. *)
Theorem forecast_days_are_calendar_days (d : openMeteoDaily.t)
    (out : list ForecastDay.t) (H : toForecastDays d = Go.Ok out) :
  out <> []
  /\ Forall (fun day =>
               let t := ForecastDay.Date day in
               0 <= Time.Year t <= 9999 /\ 1 <= Time.Month t <= 12
               /\ 1 <= Time.Day t <= Time.daysIn (Time.Month t) (Time.Year t)
               /\ Time.Hour t = 0 /\ Time.Minute t = 0
               /\ Time.Second t = 0 /\ Time.Nanosecond t = 0) out.
Proof.
  destruct (toForecastDays_Ok_inv d out H) as (Hne & Hs & Hg & Hd & Hloop).
  destruct (forecastLoop_spec d Hs Hg Hd (openMeteoDaily.Time d) 0%nat [] eq_refl)
    as [(s & e & _ & _ & Hl) | (out' & Hl & Hlen & Hall)];
    rewrite Hl in Hloop; [discriminate Hloop |].
  inversion Hloop; subst out'. clear Hloop. split.
  - intros E. rewrite E in Hlen. simpl in Hlen.
    destruct (openMeteoDaily.Time d); [now apply Hne | discriminate Hlen].
  - apply Forall_forall. intros day Hin.
    apply In_nth_error in Hin. destruct Hin as [k Hk].
    assert (Hlt : (k < length (openMeteoDaily.Time d))%nat).
    { rewrite <- Hlen. apply nth_error_Some. congruence. }
    destruct (nth_error_lt _ _ Hlt) as [s Hs'].
    destruct (Hall k s Hs') as (day' & Hday' & date & sp & gu & di & Hp & _ & _ & _ & Heq).
    assert (day' = day) by congruence. subst day'. subst day. cbn.
    destruct (ParseDate_shape s date Hp) as (_ & Hrest). exact Hrest.
Qed.

Lemma forecast_days_are_calendar_days_witness :
  let d := openMeteoDaily.mk ["2028-02-29"; "2028-03-01"]
             [12; 9]%Q [20; 15]%Q [90; 225]%Q in
  [ForecastDay.mk (Time.mk 2028 2 29 0 0 0 0) 12 20 90;
   ForecastDay.mk (Time.mk 2028 3 1 0 0 0 0) 9 15 225] <> [].
Proof.
  intros d.
  apply (forecast_days_are_calendar_days d). reflexivity.
Defined.

End ForecastDates.

(** ** More on the rain normalizer *)

Section RainRecords.

Import Weather.
Local Open Scope list_scope.

Variable r : rainResponse.t.

Local Abbreviation hourlyProbs := (rainHourly.PrecipProb (rainResponse.Hourly r)).
Local Abbreviation hourlyPrecip := (rainHourly.Precip (rainResponse.Hourly r)).
Local Abbreviation hourlyTimes := (rainHourly.Time (rainResponse.Hourly r)).
Local Abbreviation dailyTimes := (rainDaily.Time (rainResponse.Daily r)).

(** [rf'] is [rf] with at most [n] hourly samples appended: the daily fields
    are the same, the morning lists grow together, and everything appended
    comes from the hourly arrays. *)
Local Abbreviation grown n rf rf' :=
  (RainForecast.Date rf' = RainForecast.Date rf
   /\ RainForecast.PrecipProb rf' = RainForecast.PrecipProb rf
   /\ RainForecast.PrecipMM rf' = RainForecast.PrecipMM rf
   /\ exists pm mm pa,
        RainForecast.MorningRainProb rf' = RainForecast.MorningRainProb rf ++ pm
        /\ RainForecast.MorningRainMM rf' = RainForecast.MorningRainMM rf ++ mm
        /\ RainForecast.AfternoonProb rf' = RainForecast.AfternoonProb rf ++ pa
        /\ length pm = length mm
        /\ (length pm + length pa <= n)%nat
        /\ Forall (fun p => In p hourlyProbs) (pm ++ pa)
        /\ Forall (fun x => In x hourlyPrecip) mm).

Lemma grown_refl (n : nat) (rf : RainForecast.t) : grown n rf rf.
Proof.
  repeat split. exists [], [], []. rewrite !app_nil_r.
  repeat split; auto; simpl; lia.
Qed.

Lemma appendHour_grown (j : nat) (hour : Z) (rf rf' : RainForecast.t) :
  appendHour r j hour rf = Go.Ok rf' -> grown 1%nat rf rf'.
Proof.
  unfold appendHour, Go.bind, Go.index.
  destruct ((6 <=? hour) && (hour <=? 10)) eqn:W1;
    destruct ((15 <=? hour) && (hour <=? 18)) eqn:W2.
  - exfalso. apply andb_true_iff in W1. apply andb_true_iff in W2.
    destruct W1 as [_ W1]. destruct W2 as [W2 _].
    apply Z.leb_le in W1. apply Z.leb_le in W2. lia.
  - destruct (nth_error hourlyProbs j) as [p |] eqn:Ep; [| discriminate].
    destruct (nth_error hourlyPrecip j) as [x |] eqn:Ex; [| discriminate].
    intros H; inversion H; subst; cbn. repeat split.
    exists [p], [x], []. rewrite app_nil_r. repeat split; auto.
    + repeat constructor. eapply nth_error_In; eassumption.
    + repeat constructor. eapply nth_error_In; eassumption.
  - destruct (nth_error hourlyProbs j) as [p |] eqn:Ep; [| discriminate].
    intros H; inversion H; subst; cbn. repeat split.
    exists [], [], [p]. rewrite !app_nil_r. repeat split; auto.
    repeat constructor. eapply nth_error_In; eassumption.
  - intros H; inversion H; subst. apply grown_refl.
Qed.

Lemma hourlyBody_grown (date : Time.t) (j : nat) (hourStr : string)
    (rf rf' : RainForecast.t) :
  hourlyBody r date j hourStr rf = Go.Ok rf' -> grown 1%nat rf rf'.
Proof.
  unfold hourlyBody.
  destruct (Time.ParseDateHourMinute hourStr) as [hourTime | e | msg].
  - destruct (sameDate hourTime date); [apply appendHour_grown |].
    intros H; inversion H; subst. apply grown_refl.
  - intros H; inversion H; subst. apply grown_refl.
  - intros H; inversion H; subst. apply grown_refl.
Qed.

Lemma hourlyLoop_grown (date : Time.t) (hours : list string) :
  forall (j : nat) (rf rf' : RainForecast.t),
    hourlyLoop r date j hours rf = Go.Ok rf' -> grown (length hours) rf rf'.
Proof.
  induction hours as [| hourStr hours IH]; intros j rf rf'; cbn [hourlyLoop].
  - intros H; inversion H; subst. apply grown_refl.
  - destruct (hourlyBody r date j hourStr rf) as [rf1 | e | msg] eqn:Hb;
      try discriminate.
    intros Hl.
    destruct (hourlyBody_grown date j hourStr rf rf1 Hb)
      as (D1 & P1 & M1 & pm1 & mm1 & pa1 & A1 & B1 & C1 & L1 & N1 & F1 & G1).
    destruct (IH (S j) rf1 rf' Hl)
      as (D2 & P2 & M2 & pm2 & mm2 & pa2 & A2 & B2 & C2 & L2 & N2 & F2 & G2).
    repeat split; try congruence.
    exists (pm1 ++ pm2), (mm1 ++ mm2), (pa1 ++ pa2).
    rewrite A2, B2, C2, A1, B1, C1, !app_assoc. repeat split.
    + rewrite !length_app. lia.
    + rewrite !length_app. cbn [length]. lia.
    + apply Forall_app in F1. apply Forall_app in F2.
      destruct F1 as [F1 F1']. destruct F2 as [F2 F2'].
      repeat (apply Forall_app; split); assumption.
    + apply Forall_app. split; assumption.
Qed.

Lemma dailyBody_inv (i : nat) (dateStr : string) (rf : RainForecast.t) :
  dailyBody r i dateStr = Go.Ok rf ->
  exists date p mm,
    Time.ParseDate dateStr = Go.Ok date
    /\ nth_error (rainDaily.PrecipProb (rainResponse.Daily r)) i = Some p
    /\ nth_error (rainDaily.PrecipSum (rainResponse.Daily r)) i = Some mm
    /\ hourlyLoop r date 0 hourlyTimes (RainForecast.mk date p mm [] [] [])
       = Go.Ok rf.
Proof.
  unfold dailyBody, Go.bind, Go.index.
  destruct (Time.ParseDate dateStr) as [date | e | msg]; try discriminate.
  destruct (nth_error (rainDaily.PrecipProb (rainResponse.Daily r)) i) as [p |];
    [| discriminate].
  destruct (nth_error (rainDaily.PrecipSum (rainResponse.Daily r)) i) as [mm |];
    [| discriminate].
  intros H. exists date, p, mm. repeat split. exact H.
Qed.

Lemma dailyLoop_inv (dates : list string) :
  forall (i : nat) (out res : list RainForecast.t),
    dailyLoop r i dates out = Go.Ok res ->
    exists news,
      res = out ++ news /\ length news = length dates
      /\ forall k s, nth_error dates k = Some s ->
           exists rf, nth_error news k = Some rf
                      /\ dailyBody r (i + k) s = Go.Ok rf.
Proof.
  induction dates as [| s dates IH]; intros i out res; cbn [dailyLoop].
  - intros H; inversion H; subst. exists []. rewrite app_nil_r.
    repeat split. intros [| k] s' Hk; discriminate Hk.
  - destruct (dailyBody r i s) as [rf | e | msg] eqn:Hb; try discriminate.
    intros Hl. destruct (IH (S i) (out ++ [rf]) res Hl) as (news & Hres & Hlen & Hall).
    exists (rf :: news). rewrite Hres, <- app_assoc. repeat split.
    + simpl. now rewrite Hlen.
    + intros [| k] s' Hk; simpl in Hk.
      * inversion Hk; subst s'. exists rf. rewrite Nat.add_0_r. now split.
      * destruct (Hall k s' Hk) as (rf' & Hn & Hb').
        exists rf'. split; [exact Hn |].
        now replace (i + S k)%nat with (S i + k)%nat by lia.
Qed.

Lemma toRainForecasts_Ok_inv (out : list RainForecast.t) :
  toRainForecasts r = Go.Ok out ->
  dailyTimes <> [] /\ length out = length dailyTimes
  /\ forall i s, nth_error dailyTimes i = Some s ->
       exists rf, nth_error out i = Some rf /\ dailyBody r i s = Go.Ok rf.
Proof.
  unfold toRainForecasts.
  destruct (Nat.eqb_spec (length dailyTimes) 0) as [H0 | H0]; [discriminate |].
  intros H. destruct (dailyLoop_inv dailyTimes 0%nat [] out H) as (news & Hres & Hlen & Hall).
  simpl in Hres. subst news. repeat split; try assumption.
  intros E. rewrite E in H0. now apply H0.
Qed.

(** A rain forecast that [toRainForecasts] returns is never empty and has
    one record per daily date, in the order of the dates: the record at an
    index carries the parsed date and the daily probability and total of
    that index. *)
Theorem rain_records_in_order (out : list RainForecast.t)
    (H : toRainForecasts r = Go.Ok out) :
  out <> [] /\ length out = length dailyTimes
  /\ forall i s, nth_error dailyTimes i = Some s ->
       exists rf,
         nth_error out i = Some rf
         /\ Time.ParseDate s = Go.Ok (RainForecast.Date rf)
         /\ nth_error (rainDaily.PrecipProb (rainResponse.Daily r)) i
            = Some (RainForecast.PrecipProb rf)
         /\ nth_error (rainDaily.PrecipSum (rainResponse.Daily r)) i
            = Some (RainForecast.PrecipMM rf).
Proof.
  destruct (toRainForecasts_Ok_inv out H) as (Hne & Hlen & Hall).
  split; [| split; [exact Hlen |]].
  - intros E. rewrite E in Hlen. simpl in Hlen.
    destruct dailyTimes; [now apply Hne | discriminate Hlen].
  - intros i s Hs. destruct (Hall i s Hs) as (rf & Hn & Hb).
    destruct (dailyBody_inv i s rf Hb) as (date & p & mm & Hp & Hpp & Hmm & Hl).
    destruct (hourlyLoop_grown date hourlyTimes 0%nat _ rf Hl) as (D & P & M & _).
    cbn in D, P, M. exists rf. rewrite D, P, M. now repeat split.
Qed.

(** In every record that [toRainForecasts] returns, the two morning lists
    have one length, the morning and afternoon samples together are at most
    as many as the hourly timestamps, and every sample is an element of the
    hourly array it is read from. *)
Theorem rain_samples_invariant (out : list RainForecast.t)
    (H : toRainForecasts r = Go.Ok out) :
  Forall (fun rf =>
            length (RainForecast.MorningRainProb rf)
            = length (RainForecast.MorningRainMM rf)
            /\ (length (RainForecast.MorningRainProb rf)
                + length (RainForecast.AfternoonProb rf)
                <= length hourlyTimes)%nat
            /\ Forall (fun p => In p hourlyProbs) (RainForecast.MorningRainProb rf)
            /\ Forall (fun p => In p hourlyProbs) (RainForecast.AfternoonProb rf)
            /\ Forall (fun x => In x hourlyPrecip) (RainForecast.MorningRainMM rf))
    out.
Proof.
  destruct (toRainForecasts_Ok_inv out H) as (Hne & Hlen & Hall).
  apply Forall_forall. intros rf Hin.
  apply In_nth_error in Hin. destruct Hin as [k Hk].
  assert (Hlt : (k < length dailyTimes)%nat).
  { rewrite <- Hlen. apply nth_error_Some. congruence. }
  destruct (nth_error_lt _ _ Hlt) as [s Hs].
  destruct (Hall k s Hs) as (rf' & Hn & Hb).
  assert (rf' = rf) by congruence. subst rf'.
  destruct (dailyBody_inv k s rf Hb) as (date & p & mm & _ & _ & _ & Hl).
  destruct (hourlyLoop_grown date hourlyTimes 0%nat _ rf Hl)
    as (_ & _ & _ & pm & xs & pa & A & B & C & L & N & F & G).
  cbn in A, B, C. rewrite A, B, C.
  apply Forall_app in F. destruct F as [F1 F2].
  repeat split; assumption.
Qed.

End RainRecords.

Lemma rain_records_in_order_witness :
  let r := Weather.rainResponse.mk
             (Weather.rainDaily.mk ["2026-03-14"; "2026-03-15"]
                [(12 # 10)%Q; 0%Q] [40; 5])
             (Weather.rainHourly.mk
                ["2026-03-14T07:00"; "2026-03-14T16:00"; "2026-03-15T09:00"]
                [10; 20; 30] [(1 # 10)%Q; (2 # 10)%Q; (3 # 10)%Q]) in
  let out := [Weather.RainForecast.mk (Time.mk 2026 3 14 0 0 0 0) 40 (12 # 10)%Q
                [10] [(1 # 10)%Q] [20];
              Weather.RainForecast.mk (Time.mk 2026 3 15 0 0 0 0) 5 0%Q
                [30] [(3 # 10)%Q] []] in
  out <> [] /\ length out = 2%nat.
Proof.
  intros r out.
  destruct (rain_records_in_order r out eq_refl) as (H1 & H2 & _).
  split; [exact H1 | exact H2].
Defined.

Lemma rain_samples_invariant_witness :
  let r := Weather.rainResponse.mk
             (Weather.rainDaily.mk ["2026-03-14"] [(12 # 10)%Q] [40])
             (Weather.rainHourly.mk
                ["2026-03-14T07:00"; "2026-03-14T16:00"; "2026-03-15T09:00"]
                [10; 20; 30] [(1 # 10)%Q; (2 # 10)%Q; (3 # 10)%Q]) in
  let out := [Weather.RainForecast.mk (Time.mk 2026 3 14 0 0 0 0) 40 (12 # 10)%Q
                [10] [(1 # 10)%Q] [20]] in
  Forall (fun rf =>
            length (Weather.RainForecast.MorningRainProb rf)
            = length (Weather.RainForecast.MorningRainMM rf))
    out.
Proof.
  intros r out.
  pose proof (rain_samples_invariant r out eq_refl) as H.
  eapply Forall_impl; [| exact H]. intros rf Hrf. apply Hrf.
Defined.

(** ** The rain normalizer on payloads with complete arrays *)

Section RainComplete.

Import Weather.
Local Open Scope list_scope.

Variable r : rainResponse.t.

Local Abbreviation hourlyProbs := (rainHourly.PrecipProb (rainResponse.Hourly r)).
Local Abbreviation hourlyPrecip := (rainHourly.Precip (rainResponse.Hourly r)).
Local Abbreviation hourlyTimes := (rainHourly.Time (rainResponse.Hourly r)).
Local Abbreviation dailyTimes := (rainDaily.Time (rainResponse.Daily r)).
Local Abbreviation dailyProbs := (rainDaily.PrecipProb (rainResponse.Daily r)).
Local Abbreviation dailySums := (rainDaily.PrecipSum (rainResponse.Daily r)).

(** The hourly timestamp [s] parses, is on the day [date] and has its hour
    in [lo..hi]. *)
Local Abbreviation inWindow date lo hi s :=
  (match Time.ParseDateHourMinute s with
   | Go.Ok t => sameDate t date && ((lo <=? Time.Hour t) && (Time.Hour t <=? hi))
   | _ => false
   end).

(** The values of the samples whose timestamp is in the window, in the
    order of the timestamps. *)
Local Abbreviation pick date lo hi times values :=
  (map snd (filter (fun sv => inWindow date lo hi (fst sv))
              (combine times values))).

(** The inner loop from index [j] on, when the metric arrays reach as far
    as the timestamps. *)
Lemma hourlyLoop_pick (date : Time.t) (hours : list string) :
  forall (j : nat) (ps : list Z) (xs : list Q) (rf : RainForecast.t),
    skipn j hourlyProbs = ps -> skipn j hourlyPrecip = xs ->
    (length hours <= length ps)%nat -> (length hours <= length xs)%nat ->
    hourlyLoop r date j hours rf
    = Go.Ok (RainForecast.mk
               (RainForecast.Date rf) (RainForecast.PrecipProb rf)
               (RainForecast.PrecipMM rf)
               (RainForecast.MorningRainProb rf ++ pick date 6 10 hours ps)
               (RainForecast.MorningRainMM rf ++ pick date 6 10 hours xs)
               (RainForecast.AfternoonProb rf ++ pick date 15 18 hours ps)).
Proof.
  induction hours as [| hourStr hours IH]; intros j ps xs rf Hps Hxs Lp Lx.
  - cbn. rewrite !app_nil_r. now destruct rf.
  - destruct ps as [| p ps']; [simpl in Lp; lia |].
    destruct xs as [| x xs']; [simpl in Lx; lia |].
    destruct (skipn_cons_nth _ _ _ _ Hps) as [Np Sp].
    destruct (skipn_cons_nth _ _ _ _ Hxs) as [Nx Sx].
    simpl in Lp, Lx.
    cbn [hourlyLoop combine filter fst].
    unfold hourlyBody.
    destruct (Time.ParseDateHourMinute hourStr) as [t | e | msg];
      try (rewrite (IH (S j) ps' xs' rf Sp Sx) by lia; reflexivity).
    destruct (sameDate t date); cbn [andb];
      [| rewrite (IH (S j) ps' xs' rf Sp Sx) by lia; reflexivity].
    unfold appendHour, Go.bind, Go.index. rewrite Np, Nx.
    destruct ((6 <=? Time.Hour t) && (Time.Hour t <=? 10)) eqn:W1;
      destruct ((15 <=? Time.Hour t) && (Time.Hour t <=? 18)) eqn:W2.
    + exfalso. apply andb_true_iff in W1. apply andb_true_iff in W2.
      destruct W1 as [_ W1]. destruct W2 as [W2 _].
      apply Z.leb_le in W1. apply Z.leb_le in W2. lia.
    + rewrite (IH (S j) ps' xs' _ Sp Sx) by lia. cbn.
      now rewrite <- !app_assoc.
    + rewrite (IH (S j) ps' xs' _ Sp Sx) by lia. cbn.
      now rewrite <- !app_assoc.
    + rewrite (IH (S j) ps' xs' _ Sp Sx) by lia. reflexivity.
Qed.

(** The outer loop from index [i] on, when the daily metric arrays reach
    as far as the dates. *)
Lemma dailyLoop_complete :
  (length hourlyTimes <= length hourlyProbs)%nat ->
  (length hourlyTimes <= length hourlyPrecip)%nat ->
  forall (dates : list string) (i : nat) (ps : list Z) (xs : list Q)
         (out : list RainForecast.t),
    skipn i dailyProbs = ps -> skipn i dailySums = xs ->
    (length dates <= length ps)%nat -> (length dates <= length xs)%nat ->
    (forall msg, dailyLoop r i dates out <> Go.Panic msg)
    /\ (Forall (fun s => exists date, Time.ParseDate s = Go.Ok date) dates ->
        exists news,
          dailyLoop r i dates out = Go.Ok (out ++ news)
          /\ Forall (fun rf =>
                       RainForecast.MorningRainProb rf
                       = pick (RainForecast.Date rf) 6 10 hourlyTimes hourlyProbs
                       /\ RainForecast.MorningRainMM rf
                          = pick (RainForecast.Date rf) 6 10 hourlyTimes hourlyPrecip
                       /\ RainForecast.AfternoonProb rf
                          = pick (RainForecast.Date rf) 15 18 hourlyTimes hourlyProbs)
               news).
Proof.
  intros Hp Hx.
  induction dates as [| s dates IH]; intros i ps xs out Hps Hxs Lp Lx.
  - split; [discriminate |]. intros _. exists []. rewrite app_nil_r.
    split; [reflexivity | constructor].
  - destruct ps as [| p ps']; [simpl in Lp; lia |].
    destruct xs as [| x xs']; [simpl in Lx; lia |].
    destruct (skipn_cons_nth _ _ _ _ Hps) as [Np Sp].
    destruct (skipn_cons_nth _ _ _ _ Hxs) as [Nx Sx].
    simpl in Lp, Lx.
    cbn [dailyLoop]. unfold dailyBody, Go.bind, Go.index. rewrite Np, Nx.
    destruct (ParseDate_cases s) as [[date Hd] | Hd]; rewrite Hd.
    + rewrite (hourlyLoop_pick date hourlyTimes 0%nat hourlyProbs hourlyPrecip)
        by (try reflexivity; assumption).
      cbn [RainForecast.Date RainForecast.PrecipProb RainForecast.PrecipMM
           RainForecast.MorningRainProb RainForecast.MorningRainMM
           RainForecast.AfternoonProb app].
      match goal with
      | |- context [dailyLoop r (S i) dates (out ++ [?rf])] => set (rf0 := rf)
      end.
      destruct (IH (S i) ps' xs' (out ++ [rf0]) Sp Sx) as [Hnp Hok]; try lia.
      split; [exact Hnp |].
      intros Hall. inversion Hall as [| ? ? _ Hall']; subst.
      destruct (Hok Hall') as (news & Hl & Hf).
      exists (rf0 :: news). rewrite Hl, <- app_assoc. split; [reflexivity |].
      constructor; [| exact Hf]. subst rf0. cbn. repeat split.
    + split; [discriminate |].
      intros Hall. inversion Hall as [| ? ? [date Hd'] _]; subst. congruence.
Qed.

(** When no metric array is shorter than its time array, [toRainForecasts]
    never panics: it returns the empty-data error, a date-parse error, or,
    when there are dates and all of them parse, a forecast in which each
    record holds, in hourly order, exactly the samples of its own day with
    the hour in 6..10 (morning) and in 15..18 (afternoon). *)
Theorem toRainForecasts_complete_payload
    (Hdp : (length dailyTimes <= length dailyProbs)%nat)
    (Hds : (length dailyTimes <= length dailySums)%nat)
    (Hhp : (length hourlyTimes <= length hourlyProbs)%nat)
    (Hhx : (length hourlyTimes <= length hourlyPrecip)%nat) :
  (forall msg, toRainForecasts r <> Go.Panic msg)
  /\ (dailyTimes <> [] ->
      Forall (fun s => exists date, Time.ParseDate s = Go.Ok date) dailyTimes ->
      exists out,
        toRainForecasts r = Go.Ok out
        /\ Forall (fun rf =>
                     RainForecast.MorningRainProb rf
                     = pick (RainForecast.Date rf) 6 10 hourlyTimes hourlyProbs
                     /\ RainForecast.MorningRainMM rf
                        = pick (RainForecast.Date rf) 6 10 hourlyTimes hourlyPrecip
                     /\ RainForecast.AfternoonProb rf
                        = pick (RainForecast.Date rf) 15 18 hourlyTimes hourlyProbs)
             out).
Proof.
  destruct (dailyLoop_complete Hhp Hhx dailyTimes 0%nat dailyProbs dailySums []
              eq_refl eq_refl Hdp Hds) as [Hnp Hok].
  unfold toRainForecasts. split.
  - intros msg. destruct (length dailyTimes =? 0)%nat; [discriminate | apply Hnp].
  - intros Hne Hall.
    destruct (Nat.eqb_spec (length dailyTimes) 0) as [H0 | H0].
    + destruct dailyTimes; [now elim Hne | discriminate H0].
    + destruct (Hok Hall) as (news & Hl & Hf). exists news. now split.
Qed.

End RainComplete.

Lemma toRainForecasts_complete_payload_witness :
  let r := Weather.rainResponse.mk
             (Weather.rainDaily.mk ["2026-03-14"] [(12 # 10)%Q; 0%Q] [40; 5])
             (Weather.rainHourly.mk
                ["2026-03-14T07:00"; "2026-03-14T16:00"; "2026-03-15T09:00"]
                [10; 20; 30] [(1 # 10)%Q; (2 # 10)%Q; (3 # 10)%Q; (4 # 10)%Q]) in
  exists out,
    Weather.toRainForecasts r = Go.Ok out
    /\ Forall (fun rf =>
                 Weather.RainForecast.MorningRainProb rf = [10]
                 /\ Weather.RainForecast.MorningRainMM rf = [(1 # 10)%Q]
                 /\ Weather.RainForecast.AfternoonProb rf = [20])
         out.
Proof.
  intros r.
  destruct (toRainForecasts_complete_payload r) as [_ H]; try (simpl; lia).
  destruct H as (out & Ho & Hf).
  - discriminate.
  - repeat constructor. eexists. reflexivity.
  - exists out. split; [exact Ho |].
    inversion Ho; subst out.
    inversion Hf as [| rf rest (Hm & Hx & Ha) _]; subst.
    constructor; [| constructor]. rewrite Hm, Hx, Ha. repeat split.
Defined.

(** ** The two requests to the weather provider *)

Section Requests.

Import Weather OpenMeteo.
Context {N : NetLib}.
Local Open Scope list_scope.

(** Every way [toForecastDays] can end. *)
Lemma toForecastDays_results (d : openMeteoDaily.t) :
  (exists out, toForecastDays d = Go.Ok out
               /\ length out = length (openMeteoDaily.Time d) /\ out <> [])
  \/ toForecastDays d = Go.Err (Go.errors_New "no daily data returned")
  \/ toForecastDays d = Go.Err (Go.errors_New "open-meteo arrays differ in length")
  \/ (exists s e, toForecastDays d
                  = Go.Err (Go.fmt_Errorf_w "parse date %q: %w" [s] e)).
Proof.
  unfold toForecastDays.
  destruct (Nat.eqb_spec (length (openMeteoDaily.Time d)) 0) as [H0 | H0];
    [auto |].
  destruct (Nat.eqb_spec (length (openMeteoDaily.Time d))
              (length (openMeteoDaily.WindSpeedMax d))) as [Hs |]; [| auto].
  destruct (Nat.eqb_spec (length (openMeteoDaily.Time d))
              (length (openMeteoDaily.WindGustMax d))) as [Hg |]; [| auto].
  destruct (Nat.eqb_spec (length (openMeteoDaily.Time d))
              (length (openMeteoDaily.WindDirMean d))) as [Hd |]; [| auto 6].
  cbn [negb orb].
  destruct (forecastLoop_spec d Hs Hg Hd (openMeteoDaily.Time d) 0%nat [] eq_refl)
    as [(s & e & _ & _ & Hl) | (out' & Hl & Hlen & _)]; rewrite Hl.
  - right. right. right. eauto.
  - left. exists out'. repeat split; [exact Hlen |].
    intros E. rewrite E in Hlen. simpl in Hlen. congruence.
Qed.

(** The hourly scan never returns an error: it ends with a record or
    with the panic of an index out of range. *)
Lemma hourlyLoop_no_error (r : rainResponse.t) (date : Time.t)
    (hours : list string) :
  forall (j : nat) (rf : RainForecast.t) (e : Go.error),
    hourlyLoop r date j hours rf <> Go.Err e.
Proof.
  induction hours as [| h hours IH]; intros j rf e; cbn [hourlyLoop];
    [discriminate |].
  destruct (hourlyBody r date j h rf) as [rf1 | e1 | m1] eqn:Hh;
    [apply IH | | discriminate].
  exfalso. unfold hourlyBody in Hh.
  destruct (Time.ParseDateHourMinute h) as [t | pe | msg]; try discriminate.
  destruct (sameDate t date); [| discriminate].
  unfold appendHour, Go.bind, Go.index in Hh.
  repeat match type of Hh with
         | context [if ?b then _ else _] => destruct b
         | context [nth_error ?l ?k] => destruct (nth_error l k)
         end; discriminate.
Qed.

(** The only error of the daily loop is the wrapped parse error of a
    date. *)
Lemma dailyLoop_errors (r : rainResponse.t) (dates : list string) :
  forall (i : nat) (out : list RainForecast.t) (e : Go.error),
    dailyLoop r i dates out = Go.Err e ->
    exists w, e = Go.fmt_Errorf_w "parse date: %w" [] w.
Proof.
  induction dates as [| s dates IH]; intros i out e; cbn [dailyLoop];
    [discriminate |].
  destruct (dailyBody r i s) as [rf | e' | msg] eqn:Hb;
    [apply IH | | discriminate].
  intros He. inversion He; subst e'. clear He.
  unfold dailyBody, Go.bind, Go.index in Hb.
  destruct (Time.ParseDate s) as [date | pe | msg]; [| | discriminate].
  - destruct (nth_error _ i); [| discriminate].
    destruct (nth_error _ i); [| discriminate].
    exfalso. exact (hourlyLoop_no_error _ _ _ _ _ _ Hb).
  - inversion Hb. eauto.
Qed.

(** Both methods refuse a day count below 1 before any request is made. *)
Theorem fetch_rejects_days_below_one (c : OpenMeteoClient.t) (days : Z)
    (H : days < 1) :
  IO.run (Fetch c days) = (Go.Err (Go.errors_New "days must be >= 1"), [])
  /\ IO.run (FetchRain c days) = (Go.Err (Go.errors_New "days must be >= 1"), []).
Proof.
  unfold Fetch, FetchRain.
  destruct (Z.ltb_spec days 1); [split; reflexivity | lia].
Qed.

(** The client that a request goes through. *)
Local Abbreviation clientOf c :=
  (match OpenMeteoClient.HTTPClient c with
   | Some client => client
   | None => http_DefaultClient
   end).

(** Every way the common part of the two methods can end. *)
Lemma doRequest_run {A : Type} (c : OpenMeteoClient.t)
    (query : list (string * string)) (decoded : string -> Go.result A) :
  let url := (openMeteoBaseURL ++ "?" ++ url_Values_Encode query)%string in
  IO.run (doRequest c query decoded)
  = match http_NewRequest url with
    | Some err => (Go.Err (Go.fmt_Errorf_w "build request: %w" [] err), [])
    | None =>
        match clientOf c url with
        | inr err =>
            (Go.Err (Go.fmt_Errorf_w "call open-meteo: %w" [] err), [Request url])
        | inl resp =>
            (if negb (Response.StatusCode resp =? 200)
             then Go.Err (Go.fmt_Errorf "open-meteo returned %s"
                            [Response.Status resp])
             else decoded (Response.Body resp),
             Request url
             :: match Response.Close resp with
                | Some cerr => [CloseWarning cerr]
                | None => []
                end)
        end
    end.
Proof.
  intros url. unfold doRequest, IO.run. fold url.
  destruct (http_NewRequest url); [reflexivity |].
  unfold IO.bind, IO.emit, IO.ret. cbn [app].
  destruct (clientOf c url) as [resp | err]; [| reflexivity].
  destruct (Response.Close resp); reflexivity.
Qed.

(** [Fetch] never panics, and a forecast that it returns comes from one
    request answered with status 200 whose body decodes to a payload with a
    daily block: the forecast is the normalized block, so it is not empty
    and has one record per date. *)
Theorem Fetch_returns_normalized_block (c : OpenMeteoClient.t) (days : Z) :
  (forall msg, fst (IO.run (Fetch c days)) <> Go.Panic msg)
  /\ (forall out,
        fst (IO.run (Fetch c days)) = Go.Ok out ->
        1 <= days /\ out <> []
        /\ exists url resp payload daily,
             In (Request url) (snd (IO.run (Fetch c days)))
             /\ clientOf c url = inl resp
             /\ Response.StatusCode resp = 200
             /\ json_Decode_wind (Response.Body resp) = inl payload
             /\ openMeteoResponse.Daily payload = Some daily
             /\ toForecastDays daily = Go.Ok out
             /\ length out = length (openMeteoDaily.Time daily)).
Proof.
  unfold Fetch.
  destruct (Z.ltb_spec days 1) as [Hd | Hd].
  - split; [discriminate |]. intros out H. discriminate H.
  - rewrite doRequest_run.
    match goal with
    | |- context [http_NewRequest ?u] => set (url := u)
    end.
    destruct (http_NewRequest url);
      [split; [discriminate |]; intros out H; discriminate H |].
    destruct (clientOf c url) as [resp | err] eqn:Ec;
      [| split; [discriminate |]; intros out H; discriminate H].
    cbn [fst snd].
    destruct (Z.eqb_spec (Response.StatusCode resp) 200) as [Hs | Hs]; cbn [negb];
      [| split; [discriminate |]; intros out H; discriminate H].
    destruct (json_Decode_wind (Response.Body resp)) as [payload | err] eqn:Ej;
      [| split; [discriminate |]; intros out H; discriminate H].
    destruct (openMeteoResponse.Daily payload) as [daily |] eqn:Ed;
      [| split; [discriminate |]; intros out H; discriminate H].
    destruct (toForecastDays_results daily)
      as [(out' & Ho & Hl & Hne) | [He | [He | (s & e & He)]]].
    + rewrite Ho. split; [discriminate |].
      intros out H. inversion H; subst out'.
      split; [lia |]. split; [exact Hne |].
      exists url, resp, payload, daily. repeat split; auto. now left.
    + rewrite He. split; [discriminate |]. intros out H. discriminate H.
    + rewrite He. split; [discriminate |]. intros out H. discriminate H.
    + rewrite He. split; [discriminate |]. intros out H. discriminate H.
Qed.

(** A call of [Fetch] or [FetchRain] makes at most one request, and warns
    about closing the body only after the request; when no request is made
    the result is an error. *)
Theorem one_request_per_call (c : OpenMeteoClient.t) (days : Z) :
  let trace_ok (tr : list event) :=
    tr = [] \/ exists url, tr = [Request url]
                           \/ exists cerr, tr = [Request url; CloseWarning cerr] in
  trace_ok (snd (IO.run (Fetch c days)))
  /\ trace_ok (snd (IO.run (FetchRain c days)))
  /\ (snd (IO.run (Fetch c days)) = [] ->
      exists e, fst (IO.run (Fetch c days)) = Go.Err e)
  /\ (snd (IO.run (FetchRain c days)) = [] ->
      exists e, fst (IO.run (FetchRain c days)) = Go.Err e).
Proof.
  intros trace_ok. unfold trace_ok, Fetch, FetchRain.
  destruct (Z.ltb_spec days 1) as [Hd | Hd].
  - cbn. repeat split; eauto.
  - rewrite !doRequest_run.
    repeat match goal with
           | |- context [http_NewRequest ?u] =>
               destruct (http_NewRequest u); cbn [fst snd]
           | |- context [clientOf c ?u] =>
               destruct (clientOf c u) as [? | ?]; cbn [fst snd]
           | |- context [Response.Close ?r] =>
               destruct (Response.Close r); cbn [fst snd]
           end;
      repeat split; eauto; intros H; discriminate H.
Qed.

(** An agent built by [New] asks for at least one day, so a fetch for its
    day count is never refused with the day-count error. *)
Theorem New_day_count_passes_Fetch (cfg : AgentBase.Config.t)
    (c : OpenMeteoClient.t) :
  let days := AgentBase.Config.ForecastDays (AgentBase.cfg (AgentBase.New cfg)) in
  1 <= days
  /\ fst (IO.run (Fetch c days)) <> Go.Err (Go.errors_New "days must be >= 1")
  /\ fst (IO.run (FetchRain c days)) <> Go.Err (Go.errors_New "days must be >= 1").
Proof.
  intros days.
  assert (Hd : 1 <= days).
  { subst days. unfold AgentBase.New.
    destruct (Z.leb_spec (AgentBase.Config.ForecastDays cfg) 0); cbn; lia. }
  split; [exact Hd |].
  unfold Fetch, FetchRain.
  destruct (Z.ltb_spec days 1) as [Hlt | _]; [lia |].
  rewrite !doRequest_run. split.
  - match goal with
    | |- context [http_NewRequest ?u] => destruct (http_NewRequest u)
    end; [discriminate |].
    match goal with
    | |- context [clientOf c ?u] => destruct (clientOf c u) as [resp | err]
    end; [| discriminate].
    cbn [fst]. destruct (negb (Response.StatusCode resp =? 200)); [discriminate |].
    destruct (json_Decode_wind (Response.Body resp)) as [payload | err];
      [| discriminate].
    destruct (openMeteoResponse.Daily payload) as [daily |]; [| discriminate].
    destruct (toForecastDays_results daily)
      as [(out' & Ho & _) | [He | [He | (s & e & He)]]];
      [rewrite Ho | rewrite He | rewrite He | rewrite He]; discriminate.
  - match goal with
    | |- context [http_NewRequest ?u] => destruct (http_NewRequest u)
    end; [discriminate |].
    match goal with
    | |- context [clientOf c ?u] => destruct (clientOf c u) as [resp | err]
    end; [| discriminate].
    cbn [fst]. destruct (negb (Response.StatusCode resp =? 200)); [discriminate |].
    destruct (json_Decode_rain (Response.Body resp)) as [payload | err];
      [| discriminate].
    unfold toRainForecasts.
    destruct (length (rainDaily.Time (rainResponse.Daily payload)) =? 0)%nat;
      [discriminate |].
    intros H. destruct (dailyLoop_errors payload _ _ _ _ H) as [w Hw].
    discriminate Hw.
Qed.

(** [toRainForecasts] has two errors only: the empty-data error and the
    wrapped parse error of a daily date. An unreadable hourly timestamp is
    never one. *)
Theorem toRainForecasts_errors (r : rainResponse.t) (e : Go.error)
    (H : toRainForecasts r = Go.Err e) :
  (e = Go.errors_New "no daily rain data"
   /\ rainDaily.Time (rainResponse.Daily r) = [])
  \/ (exists w, e = Go.fmt_Errorf_w "parse date: %w" [] w)
     /\ rainDaily.Time (rainResponse.Daily r) <> [].
Proof.
  unfold toRainForecasts in H.
  destruct (rainDaily.Time (rainResponse.Daily r)) as [| s dates] eqn:E.
  - left. inversion H. now split.
  - right. cbn [length Nat.eqb] in H. split; [| discriminate].
    exact (dailyLoop_errors r _ _ _ _ H).
Qed.

End Requests.

Lemma toRainForecasts_errors_witness :
  (exists w, Go.fmt_Errorf_w "parse date: %w" []
               (Go.time_ParseError "2006-01-02" "tomorrow")
             = Go.fmt_Errorf_w "parse date: %w" [] w)
  /\ ["2026-03-14"; "tomorrow"] <> [].
Proof.
  destruct (toRainForecasts_errors
              (Weather.rainResponse.mk
                 (Weather.rainDaily.mk ["2026-03-14"; "tomorrow"]
                    [(12 # 10)%Q; 0%Q] [40; 5])
                 (Weather.rainHourly.mk ["not a time"] [] []))
              (Go.fmt_Errorf_w "parse date: %w" []
                 (Go.time_ParseError "2006-01-02" "tomorrow"))
              eq_refl) as [[H _] | H].
  - discriminate H.
  - exact H.
Defined.

Lemma fetch_rejects_days_below_one_witness :
  let N := OpenMeteo.Build_NetLib
             (fun _ => inr (Go.errors_New "no route to host"))
             (fun _ => None) (fun _ => "latitude=51.47") (fun _ => "51.470000")
             (fun _ => inr (Go.errors_New "unexpected end of JSON input"))
             (fun _ => inr (Go.errors_New "unexpected end of JSON input")) in
  let c := OpenMeteo.OpenMeteoClient.mk (5147 # 100) (- 4543 # 10000) None in
  IO.run (OpenMeteo.Fetch c 0)
  = (Go.Err (Go.errors_New "days must be >= 1"), [])
  /\ IO.run (OpenMeteo.FetchRain c 0)
     = (Go.Err (Go.errors_New "days must be >= 1"), []).
Proof.
  intros N c.
  apply (@fetch_rejects_days_below_one N c 0). lia.
Defined.

Lemma Fetch_returns_normalized_block_witness :
  let daily := Weather.openMeteoDaily.mk ["2026-03-14"; "2026-03-15"]
                 [12; 9]%Q [20; 15]%Q [90; 225]%Q in
  let N := OpenMeteo.Build_NetLib
             (fun _ => inr (Go.errors_New "no route to host"))
             (fun _ => None) (fun _ => "latitude=51.47") (fun _ => "51.470000")
             (fun _ => inl (OpenMeteo.openMeteoResponse.mk (Some daily) None))
             (fun _ => inr (Go.errors_New "unexpected end of JSON input")) in
  let answer : OpenMeteo.HTTPClient :=
    fun _ => inl (OpenMeteo.Response.mk 200 "200 OK" "{}" None) in
  let c := OpenMeteo.OpenMeteoClient.mk (5147 # 100) (- 4543 # 10000)
             (Some answer) in
  1 <= 15
  /\ [Weather.ForecastDay.mk (Time.mk 2026 3 14 0 0 0 0) 12 20 90;
      Weather.ForecastDay.mk (Time.mk 2026 3 15 0 0 0 0) 9 15 225] <> [].
Proof.
  intros daily N answer c.
  destruct (@Fetch_returns_normalized_block N c 15) as [_ H].
  destruct (H _ eq_refl) as (H1 & H2 & _).
  split; [exact H1 | exact H2].
Defined.

Lemma one_request_per_call_witness :
  let N := OpenMeteo.Build_NetLib
             (fun _ => inr (Go.errors_New "no route to host"))
             (fun _ => Some (Go.errors_New "invalid control character in URL"))
             (fun _ => "latitude=51.47") (fun _ => "51.470000")
             (fun _ => inr (Go.errors_New "unexpected end of JSON input"))
             (fun _ => inr (Go.errors_New "unexpected end of JSON input")) in
  let c := OpenMeteo.OpenMeteoClient.mk (5147 # 100) (- 4543 # 10000) None in
  exists e, fst (IO.run (OpenMeteo.Fetch c 15)) = Go.Err e.
Proof.
  intros N c.
  destruct (@one_request_per_call N c 15) as (_ & _ & H & _).
  apply H. reflexivity.
Defined.
